(** * SimpleAgent (src/demo.ts): a shallow embedding and its properties

    The file embeds the class [SimpleAgent] of [src/demo.ts]: the static
    constructor [create], the method [sendMessage] and the two accessors,
    and its callers in the same file: [basicExample], [streamingExample],
    [vscodeExample] and the [handleSend] of [ReactExample].
    The collaborators imported from [@google/gemini-cli-core] ([Config],
    [GeminiClient], the event stream) are outside the repository: they appear
    here as data the environment supplies (the script of a stream, the outcome
    of an [initialize()] call), and every theorem quantifies over them. *)

From Stdlib Require Import String List ZArith FinFun.
From Stdlib Require Import DecimalString DecimalZ.
Import ListNotations.
Local Open Scope string_scope.

(** ** JavaScript values that a [throw] statement carries *)

Module Js.

(** A thrown value is either an object for which [error instanceof Error]
    holds, with its [name] and [message], or anything else (a string, a plain
    object, which may well have a [name] property of its own). *)
Inductive Value : Type :=
| ErrorObject (name message : string)
| OtherValue (name : option string) (payload : string).

Definition instanceof_Error (v : Value) : bool :=
  match v with
  | ErrorObject _ _ => true
  | OtherValue _ _ => false
  end.

Definition name (v : Value) : option string :=
  match v with
  | ErrorObject n _ => Some n
  | OtherValue n _ => n
  end.

(** [new Error(message)]: the [name] of a plain [Error] is ["Error"]. *)
Definition new_Error (message : string) : Value := ErrorObject "Error" message.

(** [a === b] on a property that may be undefined, against a string. *)
Definition strict_eq (a : option string) (b : string) : bool :=
  match a with
  | Some s => String.eqb s b
  | None => false
  end.

(** [a || b] where [a] is a string or undefined: the empty string and
    undefined are the falsy ones. *)
Definition or_else (a : option string) (b : string) : string :=
  match a with
  | Some EmptyString => b
  | Some s => s
  | None => b
  end.

(** How an abstract operation ends: normally with a value, or abruptly with
    the thrown value (a rejected promise under [await]). *)
Inductive Completion (A : Type) : Type :=
| Normal (value : A)
| Throw (reason : Value).

Arguments Normal {A} value.
Arguments Throw {A} reason.

(** The template literal [`${n}`] on an integer-valued number: decimal
    digits, with a leading minus sign below zero.  ([Date.now()] stays far
    below 1e21, where JavaScript would switch to exponent notation.) *)
Definition Number_toString (n : Z) : string :=
  NilEmpty.string_of_int (Z.to_int n).

End Js.

Import Js.

(** ** The part of [@google/gemini-cli-core] the facade touches *)

Module GeminiCore.

(** Modelled from the spec: the payload of an error event.  The declaration
    of [GeminiErrorEventValue] is in the imported library; the source reads
    it as [event.value.error?.message], so both the [error] and its
    [message] may be missing. *)
Record StructuredError : Type := {
  message : option string;
  status : option Z
}.

Record GeminiErrorEventValue : Type := {
  error : option StructuredError
}.

(** Modelled from the spec: a tool-call request; the source reads only
    [event.value.name]. *)
Record ToolCallRequestInfo : Type := {
  callId : string;
  name : string
}.

(** [ServerGeminiStreamEvent], by [event.type].  [Other] stands for every
    member of [GeminiEventType] the [switch] has no [case] for. *)
Inductive ServerGeminiStreamEvent : Type :=
| Content (value : string)
| Finished
| Error (value : GeminiErrorEventValue)
| ToolCallRequest (value : ToolCallRequestInfo)
| Other (type : string).

(** The asynchronous generator [sendMessageStream] returns, as the script of
    what successive [next()] calls give: an event, the end of the stream, or
    a rejection.  The generator is lazy: what follows the point where the
    consumer stops is never run.  Where the generator is suspended on an
    event, the consumer may close it ([return()]) instead of resuming it:
    after [Yield] the closing completes normally; [YieldFinally event reason
    rest] yields [event] from inside a [try] whose [finally] clause throws
    [reason] when the generator is closed there. *)
Inductive Stream : Type :=
| Yield (event : ServerGeminiStreamEvent) (rest : Stream)
| Done
| Raise (reason : Js.Value)
| YieldFinally (event : ServerGeminiStreamEvent) (reason : Js.Value) (rest : Stream).

(** An [AbortController] is known by its position in the world's table of
    controllers; its [signal] only refers to it. *)
Record AbortController : Type := { controller_id : nat }.
Record AbortSignal : Type := { of_controller : nat }.

Definition signal (c : AbortController) : AbortSignal :=
  {| of_controller := controller_id c |}.

Inductive ApprovalMode : Type := DEFAULT | AUTO_EDIT | YOLO.

Record ConfigParameters : Type := {
  sessionId : string;
  targetDir : string;
  cwd : string;
  debugMode : bool;
  model : string;
  embeddingModel : string;
  approvalMode : ApprovalMode
}.

(** The client handle: an object of the world's store (whether it has been
    initialized is its state there), and what its [sendMessageStream] does
    with a message, a signal and a prompt id (it may throw instead of handing
    out a stream). *)
Record GeminiClient : Type := {
  client_id : nat;
  stream_of : string -> AbortSignal -> string -> Completion Stream
}.

(** The configuration: an object of the world's store too, with the
    parameters it was made from and the client it hands out. *)
Record Config : Type := {
  config_id : nat;
  parameters : ConfigParameters;
  geminiClient : GeminiClient
}.

Definition getSessionId (c : Config) : string := sessionId (parameters c).
Definition getGeminiClient (c : Config) : GeminiClient := geminiClient c.

(** What the library does during one [create]: the values the facade cannot
    influence. *)
Record Library : Type := {
  uuidv4 : string;
  DEFAULT_GEMINI_MODEL_AUTO : string;
  DEFAULT_GEMINI_EMBEDDING_MODEL : string;
  (** what [sendMessageStream] of the client of a configuration does *)
  client_behaviour : string -> AbortSignal -> string -> Completion Stream;
  (** whether [config.initialize()] leaves that client initialized already *)
  client_ready_after_config : bool;
  (** [await config.initialize()]: [None] when it resolves *)
  Config_initialize_fails : option Js.Value;
  (** [await client.initialize()]: [None] when it resolves *)
  GeminiClient_initialize_fails : option Js.Value
}.

End GeminiCore.

Import GeminiCore.

(** ** The world a call runs in, and the monad of effects *)

(** One request as the client's [sendMessageStream] received it. *)
Record Request : Type := {
  req_message : string;
  req_signal : AbortSignal;
  req_promptId : string
}.

Record World : Type := {
  (** what [Date.now()] answers, in milliseconds *)
  now : Z;
  (** every [AbortController] made so far, as its [signal.aborted] flag *)
  controllers : list bool;
  (** every [Config] made so far: has its [initialize()] completed? *)
  configs : list bool;
  (** every [GeminiClient] made so far: what [isInitialized()] answers *)
  clients : list bool;
  (** the lines written by [console.log] *)
  console : list string;
  (** the chunks the [onStream] callback was invoked with, oldest first *)
  onStream_calls : list string;
  (** the calls of [client.sendMessageStream], oldest first *)
  requests : list Request
}.

Definition M (A : Type) : Type := World -> Completion A * World.

Definition ret {A} (a : A) : M A := fun w => (Normal a, w).

Definition throw {A} (e : Js.Value) : M A := fun w => (Throw e, w).

Definition bind {A B} (c : M A) (k : A -> M B) : M B :=
  fun w =>
    match c w with
    | (Normal a, w') => k a w'
    | (Throw e, w') => (Throw e, w')
    end.

(** [try { body } catch (error) { handler }] *)
Definition try_catch {A} (body : M A) (handler : Js.Value -> M A) : M A :=
  fun w =>
    match body w with
    | (Normal a, w') => (Normal a, w')
    | (Throw e, w') => handler e w'
    end.

Declare Scope js_scope.
Delimit Scope js_scope with js.
Notation "x <- c ;; k" := (bind c (fun x => k))
  (at level 100, c at next level, right associativity) : js_scope.
Notation "c ;;; k" := (bind c (fun _ => k))
  (at level 100, right associativity) : js_scope.
Local Open Scope js_scope.

(** [onStream?: (chunk: string) => void].  A callback decides from the chunks
    it has been handed before and the one it is handed now whether it returns
    ([None]) or throws. *)
Definition Callback : Type := list string -> string -> option Js.Value.

Definition Date_now : M Z := fun w => (Normal (now w), w).

Definition new_AbortController : M AbortController :=
  fun w =>
    (Normal {| controller_id := length (controllers w) |},
     {| now := now w;
        controllers := controllers w ++ [false];
        configs := configs w;
        clients := clients w;
        console := console w;
        onStream_calls := onStream_calls w;
        requests := requests w |}).

(** [signal.aborted], read in a world. *)
Definition aborted (s : AbortSignal) (w : World) : bool :=
  nth (of_controller s) (controllers w) false.

Definition console_log (line : string) : M unit :=
  fun w =>
    (Normal tt,
     {| now := now w;
        controllers := controllers w;
        configs := configs w;
        clients := clients w;
        console := console w ++ [line];
        onStream_calls := onStream_calls w;
        requests := requests w |}).

(** [onStream(chunk)]: the invocation is recorded whether or not it throws. *)
Definition call (onStream : Callback) (chunk : string) : M unit :=
  fun w =>
    let w' := {| now := now w;
                 controllers := controllers w;
                 configs := configs w;
                 clients := clients w;
                 console := console w;
                 onStream_calls := onStream_calls w ++ [chunk];
                 requests := requests w |} in
    match onStream (onStream_calls w) chunk with
    | None => (Normal tt, w')
    | Some e => (Throw e, w')
    end.

(** [client.sendMessageStream(message, signal, promptId)] *)
Definition sendMessageStream (client : GeminiClient) (message : string)
    (sig : AbortSignal) (promptId : string) : M Stream :=
  fun w =>
    (stream_of client message sig promptId,
     {| now := now w;
        controllers := controllers w;
        configs := configs w;
        clients := clients w;
        console := console w;
        onStream_calls := onStream_calls w;
        requests := requests w ++
          [{| req_message := message; req_signal := sig; req_promptId := promptId |}] |}).

(** ** The class [SimpleAgent] *)

Record SimpleAgent : Type := {
  client : GeminiClient;
  config : Config
}.

(** [private constructor(config, client)] *)
Definition new_SimpleAgent (config : Config) (client : GeminiClient) : SimpleAgent :=
  {| client := client; config := config |}.

(** [b] put at position [i] of a table of flags. *)
Fixpoint put (i : nat) (b : bool) (flags : list bool) : list bool :=
  match flags, i with
  | [], _ => []
  | _ :: rest, O => b :: rest
  | a :: rest, S j => a :: put j b rest
  end.

(** [new Config({...})]: a new configuration with its client, neither of them
    initialized yet. *)
Definition new_Config (lib : Library) (p : ConfigParameters) : M Config :=
  fun w =>
    (Normal {| config_id := length (configs w);
               parameters := p;
               geminiClient := {| client_id := length (clients w);
                                  stream_of := client_behaviour lib |} |},
     {| now := now w;
        controllers := controllers w;
        configs := configs w ++ [false];
        clients := clients w ++ [false];
        console := console w;
        onStream_calls := onStream_calls w;
        requests := requests w |}).

(** Modelled from the spec: [await config.initialize()], the configuration
    initialization, which may fail; when it completes, the configuration is
    initialized. *)
Definition Config_initialize (lib : Library) (c : Config) : M unit :=
  match Config_initialize_fails lib with
  | Some e => throw e
  | None =>
      fun w =>
        (Normal tt,
         {| now := now w;
            controllers := controllers w;
            configs := put (config_id c) true (configs w);
            clients := put (client_id (geminiClient c))
                         (client_ready_after_config lib) (clients w);
            console := console w;
            onStream_calls := onStream_calls w;
            requests := requests w |})
  end.

(** [client.isInitialized()] *)
Definition isInitialized (c : GeminiClient) : M bool :=
  fun w => (Normal (nth (client_id c) (clients w) false), w).

(** Modelled from the spec: [await client.initialize()], the initialization
    of the client handle, which may fail; when it completes, the client is
    initialized. *)
Definition GeminiClient_initialize (lib : Library) (c : GeminiClient) : M unit :=
  match GeminiClient_initialize_fails lib with
  | Some e => throw e
  | None =>
      fun w =>
        (Normal tt,
         {| now := now w;
            controllers := controllers w;
            configs := configs w;
            clients := put (client_id c) true (clients w);
            console := console w;
            onStream_calls := onStream_calls w;
            requests := requests w |})
  end.

(** [static async create(workspaceRoot: string): Promise<SimpleAgent>] *)
Definition create (lib : Library) (workspaceRoot : string) : M SimpleAgent :=
  config <- new_Config lib
    {| sessionId := uuidv4 lib;
       targetDir := workspaceRoot;
       cwd := workspaceRoot;
       debugMode := false;
       model := DEFAULT_GEMINI_MODEL_AUTO lib;
       embeddingModel := DEFAULT_GEMINI_EMBEDDING_MODEL lib;
       approvalMode := DEFAULT |} ;;
  Config_initialize lib config ;;;
  let client := getGeminiClient config in
  ready <- isInitialized client ;;
  (if negb ready then GeminiClient_initialize lib client else ret tt) ;;;
  ret (new_SimpleAgent config client).

(** [`${this.config.getSessionId()}-${Date.now()}`] *)
Definition promptId_of (sessionId : string) (t : Z) : string :=
  sessionId ++ "-" ++ Number_toString t.

(** [if (onStream) { onStream(event.value); }] *)
Definition notify (onStream : option Callback) (chunk : string) : M unit :=
  match onStream with
  | Some f => call f chunk
  | None => ret tt
  end.

(** [event.value.error?.message] *)
Definition error_message (v : GeminiErrorEventValue) : option string :=
  match error v with
  | Some e => message e
  | None => None
  end.

(** What closing the generator throws, where it is suspended on the event
    that [stream] starts with. *)
Definition closing (stream : Stream) : option Js.Value :=
  match stream with
  | YieldFinally _ reason _ => Some reason
  | _ => None
  end.

(** [await stream.return()], which leaving a [for await] loop by [return]
    performs: what the closing throws is thrown in place of the return. *)
Definition close (stream : Stream) : M unit :=
  match closing stream with
  | Some reason => throw reason
  | None => ret tt
  end.

(** The [for await (const event of stream) { switch (event.type) ... }] loop
    with the [return fullResponse] after it.  The [return] of the finished
    case closes the generator first, and awaits that.  A [throw] in the loop
    (the error case, a callback that throws) closes it too, but there what
    the closing throws is dropped and the value thrown in the loop stands. *)
Fixpoint for_await (onStream : option Callback) (stream : Stream)
    (fullResponse : string) {struct stream} : M string :=
  match stream with
  | Yield event rest | YieldFinally event _ rest =>
      match event with
      | Content value =>
          let fullResponse := fullResponse ++ value in
          notify onStream value ;;;
          for_await onStream rest fullResponse
      | Finished => close stream ;;; ret fullResponse
      | Error value =>
          throw (new_Error (or_else (error_message value) "Unknown error occurred"))
      | ToolCallRequest value =>
          console_log ("Tool call requested: " ++ name value) ;;;
          for_await onStream rest fullResponse
      | Other _ => for_await onStream rest fullResponse
      end
  | Done => ret fullResponse
  | Raise reason => throw reason
  end.

(** [error instanceof Error && error.name === 'AbortError'] *)
Definition is_AbortError (error : Js.Value) : bool :=
  instanceof_Error error && strict_eq (Js.name error) "AbortError".

(** The body of the [try] block of [sendMessage]. *)
Definition sendMessage_try (this : SimpleAgent) (message : string)
    (onStream : option Callback) (sig : AbortSignal) (promptId : string) : M string :=
  stream <- sendMessageStream (client this) message sig promptId ;;
  for_await onStream stream "".

(** The [catch (error)] block of [sendMessage]. *)
Definition sendMessage_catch (error : Js.Value) : M string :=
  if is_AbortError error
  then throw (new_Error "Request cancelled")
  else throw error.

(** [async sendMessage(message, onStream?): Promise<string>] *)
Definition sendMessage (this : SimpleAgent) (message : string)
    (onStream : option Callback) : M string :=
  promptId <- (t <- Date_now ;; ret (promptId_of (getSessionId (config this)) t)) ;;
  abortController <- new_AbortController ;;
  try_catch
    (sendMessage_try this message onStream (signal abortController) promptId)
    sendMessage_catch.

Definition getConfig (this : SimpleAgent) : Config := config this.
Definition getClient (this : SimpleAgent) : GeminiClient := client this.


(** ** Vocabulary for the statements *)

(** The script that yields [events] one after the other and goes on as [rest]. *)
Fixpoint yields (events : list ServerGeminiStreamEvent) (rest : Stream) : Stream :=
  match events with
  | [] => rest
  | e :: es => Yield e (yields es rest)
  end.

(** [c1 + ... + cn] *)
Definition join (chunks : list string) : string :=
  fold_right String.append "" chunks.

(** The payloads of the content-chunks among [events], in order. *)
Definition chunks (events : list ServerGeminiStreamEvent) : list string :=
  flat_map (fun e => match e with Content v => [v] | _ => [] end) events.

(** The lines the tool-call requests among [events] put on the console. *)
Definition log_lines (events : list ServerGeminiStreamEvent) : list string :=
  flat_map (fun e => match e with
                     | ToolCallRequest v => ["Tool call requested: " ++ name v]
                     | _ => []
                     end) events.

(** The events that end the loop: [finished] and [error]. *)
Definition terminal (e : ServerGeminiStreamEvent) : bool :=
  match e with
  | Finished | Error _ => true
  | _ => false
  end.

Definition no_terminal (events : list ServerGeminiStreamEvent) : bool :=
  forallb (fun e => negb (terminal e)) events.

(** Every invocation of the callback on [chunks], one after the other,
    returns; [seen] is what it was handed before.  No callback: nothing to
    return from. *)
Fixpoint returns_normally (onStream : option Callback) (seen chunks : list string) : bool :=
  match chunks with
  | [] => true
  | c :: cs =>
      match onStream with
      | None => true
      | Some f =>
          match f seen c with
          | None => returns_normally onStream (seen ++ [c]) cs
          | Some _ => false
          end
      end
  end.

(** What the callback has been handed once [cs] went through [notify]. *)
Definition handed (onStream : option Callback) (seen cs : list string) : list string :=
  match onStream with
  | Some _ => seen ++ cs
  | None => seen
  end.

(** The world once the loop has been through [events], none of them terminal. *)
Definition after (onStream : option Callback) (events : list ServerGeminiStreamEvent)
    (w : World) : World :=
  {| now := now w;
     controllers := controllers w;
     configs := configs w;
     clients := clients w;
     console := console w ++ log_lines events;
     onStream_calls := handed onStream (onStream_calls w) (chunks events);
     requests := requests w |}.

(** The signal and the prompt id a [sendMessage] started in [w] passes on. *)
Definition fresh_signal (w : World) : AbortSignal :=
  {| of_controller := length (controllers w) |}.

Definition promptId_at (this : SimpleAgent) (w : World) : string :=
  promptId_of (getSessionId (config this)) (now w).

(** What the client answers when a [sendMessage] started in [w] opens its stream. *)
Definition opened (this : SimpleAgent) (message : string) (w : World) : Completion Stream :=
  stream_of (client this) message (fresh_signal w) (promptId_at this w).

(** The world in which the loop of a [sendMessage] started in [w] begins. *)
Definition started (this : SimpleAgent) (message : string) (w : World) : World :=
  {| now := now w;
     controllers := controllers w ++ [false];
     configs := configs w;
     clients := clients w;
     console := console w;
     onStream_calls := onStream_calls w;
     requests := requests w ++
       [{| req_message := message;
           req_signal := fresh_signal w;
           req_promptId := promptId_at this w |}] |}.

(** What the [catch] block turns a thrown value into. *)
Definition normalized (e : Js.Value) : Js.Value :=
  if is_AbortError e then new_Error "Request cancelled" else e.

(** Who raised an exception inside the [try] block. *)
Inductive Source : Type := ByStream | ByCallback.

(** [raises onStream seen stream src e]: the loop over [stream], the callback
    having been handed [seen] so far, gets as far as the point where the stream
    rejects with [e] ([ByStream]: a [next()] that rejects, or the closing at
    a finished event that throws) or where the callback throws [e]
    ([ByCallback]). *)
Inductive raises (onStream : option Callback) :
    list string -> Stream -> Source -> Js.Value -> Prop :=
| raises_reject : forall seen e,
    raises onStream seen (Raise e) ByStream e
| raises_close : forall seen e rest,
    raises onStream seen (YieldFinally Finished e rest) ByStream e
| raises_in_finally : forall seen event reason rest src e,
    event <> Finished ->
    raises onStream seen (Yield event rest) src e ->
    raises onStream seen (YieldFinally event reason rest) src e
| raises_callback : forall f seen v rest e,
    onStream = Some f ->
    f seen v = Some e ->
    raises onStream seen (Yield (Content v) rest) ByCallback e
| raises_past_content : forall seen v rest src e,
    returns_normally onStream seen [v] = true ->
    raises onStream (handed onStream seen [v]) rest src e ->
    raises onStream seen (Yield (Content v) rest) src e
| raises_past_tool_call : forall seen v rest src e,
    raises onStream seen rest src e ->
    raises onStream seen (Yield (ToolCallRequest v) rest) src e
| raises_past_other : forall seen t rest src e,
    raises onStream seen rest src e ->
    raises onStream seen (Yield (Other t) rest) src e.


(** The requests the client received between two worlds. *)
Definition sent (w w' : World) : list Request :=
  skipn (length (requests w)) (requests w').

(** Two worlds in which the callback has been handed the same chunks: all
    that the loop reads of a world. *)
Definition same_calls (w1 w2 : World) : Prop :=
  onStream_calls w1 = onStream_calls w2.

(** Has the configuration, the client, been initialized in world [w]? *)
Definition config_ready (c : Config) (w : World) : bool :=
  nth (config_id c) (configs w) false.

Definition client_ready (c : GeminiClient) (w : World) : bool :=
  nth (client_id c) (clients w) false.

(** What the script of a stream ends with, when it ends with a rejection:
    of a [next()], or of the closing at a finished event. *)
Fixpoint rejection (stream : Stream) : option Js.Value :=
  match stream with
  | Yield _ rest => rejection rest
  | Done => None
  | Raise e => Some e
  | YieldFinally Finished e _ => Some e
  | YieldFinally _ _ rest => rejection rest
  end.

(** The world in which the [try] block of a [sendMessage] started in [w] is
    entered: the controller of the call has been made. *)
Definition entered (w : World) : World := snd (new_AbortController w).

(** A [sendMessage] started in [w] leaves its [try] block with [e] thrown and
    takes the branch of the [catch] block that throws ["Request cancelled"]. *)
Definition cancelled_on (this : SimpleAgent) (message : string)
    (onStream : option Callback) (w : World) (e : Js.Value) : Prop :=
  exists w',
    sendMessage_try this message onStream (fresh_signal w) (promptId_at this w)
      (entered w) = (Throw e, w') /\
    is_AbortError e = true.

(** What the library does when every initialization succeeds, and when the
    client's fails. *)
Definition sample_library : Library :=
  {| uuidv4 := "0b0e7a2c";
     DEFAULT_GEMINI_MODEL_AUTO := "auto";
     DEFAULT_GEMINI_EMBEDDING_MODEL := "gemini-embedding-001";
     client_behaviour := fun _ _ _ => Normal (Yield Finished Done);
     client_ready_after_config := false;
     Config_initialize_fails := None;
     GeminiClient_initialize_fails := None |}.

Definition failing_library : Library :=
  {| uuidv4 := "0b0e7a2c";
     DEFAULT_GEMINI_MODEL_AUTO := "auto";
     DEFAULT_GEMINI_EMBEDDING_MODEL := "gemini-embedding-001";
     client_behaviour := fun _ _ _ => Normal (Yield Finished Done);
     client_ready_after_config := false;
     Config_initialize_fails := None;
     GeminiClient_initialize_fails := Some (ErrorObject "Error" "no credentials") |}.

(** ** Concrete data for the examples *)

Definition sample_parameters : ConfigParameters :=
  {| sessionId := "0b0e7a2c";
     targetDir := "/path/to/workspace";
     cwd := "/path/to/workspace";
     debugMode := false;
     model := "auto";
     embeddingModel := "gemini-embedding-001";
     approvalMode := DEFAULT |}.

(** A client whose [sendMessageStream] always answers [answer]. *)
Definition sample_client (answer : Completion Stream) : GeminiClient :=
  {| client_id := 0; stream_of := fun _ _ _ => answer |}.

Definition sample_agent (answer : Completion Stream) : SimpleAgent :=
  new_SimpleAgent
    {| config_id := 0; parameters := sample_parameters;
       geminiClient := sample_client answer |}
    (sample_client answer).

Definition world0 : World :=
  {| now := 1762070400000; controllers := []; configs := []; clients := [];
     console := []; onStream_calls := []; requests := [] |}.

(** A callback that always returns, and one that throws an [AbortError]. *)
Definition returning : Callback := fun _ _ => None.
Definition aborting : Callback :=
  fun _ _ => Some (ErrorObject "AbortError" "stop").

Definition error_event (m : option string) : ServerGeminiStreamEvent :=
  Error {| error := Some {| message := m; status := None |} |}.

Definition read_file_call : ToolCallRequestInfo :=
  {| callId := "call-1"; name := "read_file" |}.

(** A library that initializes and whose client streams two chunks around a
    tool-call request, and one whose client streams a chunk and an error. *)
Definition chatty_library : Library :=
  {| uuidv4 := "0b0e7a2c";
     DEFAULT_GEMINI_MODEL_AUTO := "auto";
     DEFAULT_GEMINI_EMBEDDING_MODEL := "gemini-embedding-001";
     client_behaviour := fun _ _ _ =>
       Normal (Yield (Content "po")
                 (Yield (ToolCallRequest read_file_call)
                    (Yield (Content "ng") (Yield Finished Done))));
     client_ready_after_config := false;
     Config_initialize_fails := None;
     GeminiClient_initialize_fails := None |}.

Definition erring_library : Library :=
  {| uuidv4 := "0b0e7a2c";
     DEFAULT_GEMINI_MODEL_AUTO := "auto";
     DEFAULT_GEMINI_EMBEDDING_MODEL := "gemini-embedding-001";
     client_behaviour := fun _ _ _ =>
       Normal (Yield (Content "po")
                 (Yield (error_event (Some "quota exceeded")) Done));
     client_ready_after_config := false;
     Config_initialize_fails := None;
     GeminiClient_initialize_fails := None |}.

(** ** Vocabulary for whole scripts and for sequences of calls *)

(** The script that yields [event] and goes on as [rest], closing the
    generator there doing what [cleanup] says: nothing, or throwing. *)
Definition suspended (cleanup : option Js.Value) (event : ServerGeminiStreamEvent)
    (rest : Stream) : Stream :=
  match cleanup with
  | None => Yield event rest
  | Some reason => YieldFinally event reason rest
  end.

(** The payloads of all the content-chunks of a script, in order. *)
Fixpoint script_chunks (stream : Stream) : list string :=
  match stream with
  | Yield (Content v) rest | YieldFinally (Content v) _ rest =>
      v :: script_chunks rest
  | Yield _ rest | YieldFinally _ _ rest => script_chunks rest
  | Done | Raise _ => []
  end.


(** One call of [sendMessage]: on which facade, with which arguments. *)
Record Call : Type := {
  call_agent : SimpleAgent;
  call_message : string;
  call_onStream : option Callback
}.

(** The world after the calls have been made one after the other, whatever
    each of them returned or threw. *)
Fixpoint run_all (calls : list Call) (w : World) : World :=
  match calls with
  | [] => w
  | c :: rest =>
      run_all rest
        (snd (sendMessage (call_agent c) (call_message c) (call_onStream c) w))
  end.

(** ** The callers of the facade *)


(** The other callers pass callbacks that are code of their own: a callback
    changes what its caller keeps (a local variable, the state of a
    component, what a webview has received) and may write to the console.
    Such code runs over the caller's state [X] next to the world. *)
Definition Caller (X A : Type) : Type := X * World -> Completion A * (X * World).

Definition retC {X A} (a : A) : Caller X A := fun s => (Normal a, s).

Definition throwC {X A} (e : Js.Value) : Caller X A := fun s => (Throw e, s).

Definition bindC {X A B} (c : Caller X A) (k : A -> Caller X B) : Caller X B :=
  fun s =>
    match c s with
    | (Normal a, s') => k a s'
    | (Throw e, s') => (Throw e, s')
    end.

(** What the facade and the library do leaves the caller's state alone. *)
Definition lift {X A} (c : M A) : Caller X A :=
  fun s =>
    match c (snd s) with
    | (r, w') => (r, (fst s, w'))
    end.

Definition read {X} : Caller X X := fun s => (Normal (fst s), s).

Definition update {X} (f : X -> X) : Caller X unit :=
  fun s => (Normal tt, (f (fst s), snd s)).

(** [try { body } catch (error) { handler }] *)
Definition try_catchC {X A} (body : Caller X A) (handler : Js.Value -> Caller X A)
    : Caller X A :=
  fun s =>
    match body s with
    | (Normal a, s') => (Normal a, s')
    | (Throw e, s') => handler e s'
    end.

(** [try { body } finally { final }] *)
Definition try_finallyC {X A} (body : Caller X A) (final : Caller X unit)
    : Caller X A :=
  fun s =>
    match body s with
    | (r, s') =>
        match final s' with
        | (Normal _, s'') => (r, s'')
        | (Throw e, s'') => (Throw e, s'')
        end
    end.

Declare Scope caller_scope.
Delimit Scope caller_scope with caller.
Notation "x <- c ;; k" := (bindC c (fun x => k))
  (at level 100, c at next level, right associativity) : caller_scope.
Notation "c ;;; k" := (bindC c (fun _ => k))
  (at level 100, right associativity) : caller_scope.
Local Open Scope caller_scope.

(** [(chunk: string) => void], as code of the caller. *)
Definition Handler (X : Type) : Type := string -> Caller X unit.

(** The world with one more invocation of the callback on record. *)
Definition recorded (chunk : string) (w : World) : World :=
  {| now := now w;
     controllers := controllers w;
     configs := configs w;
     clients := clients w;
     console := console w;
     onStream_calls := onStream_calls w ++ [chunk];
     requests := requests w |}.

(** [if (onStream) { onStream(event.value); }]: the invocation is recorded
    whether or not it throws. *)
Definition notify_with {X} (onStream : option (Handler X)) (chunk : string)
    : Caller X unit :=
  match onStream with
  | Some f =>
      fun s =>
        match f chunk s with
        | (r, s') => (r, (fst s', recorded chunk (snd s')))
        end
  | None => retC tt
  end.

(** [await stream.return()] once more. *)
Definition closeC {X} (stream : Stream) : Caller X unit :=
  match closing stream with
  | Some reason => throwC reason
  | None => retC tt
  end.

(** The loop of [sendMessage] once more, with such a callback. *)
Fixpoint for_await_with {X} (onStream : option (Handler X)) (stream : Stream)
    (fullResponse : string) {struct stream} : Caller X string :=
  match stream with
  | Yield event rest | YieldFinally event _ rest =>
      match event with
      | Content value =>
          let fullResponse := fullResponse ++ value in
          notify_with onStream value ;;;
          for_await_with onStream rest fullResponse
      | Finished => closeC stream ;;; retC fullResponse
      | Error value =>
          throwC (new_Error (or_else (error_message value) "Unknown error occurred"))
      | ToolCallRequest value =>
          lift (console_log ("Tool call requested: " ++ name value)) ;;;
          for_await_with onStream rest fullResponse
      | Other _ => for_await_with onStream rest fullResponse
      end
  | Done => retC fullResponse
  | Raise reason => throwC reason
  end.

(** [async sendMessage(message, onStream?)] once more, with such a callback. *)
Definition sendMessage_with {X} (this : SimpleAgent) (message : string)
    (onStream : option (Handler X)) : Caller X string :=
  promptId <- (t <- lift Date_now ;;
               retC (promptId_of (getSessionId (config this)) t)) ;;
  abortController <- lift new_AbortController ;;
  try_catchC
    (stream <- lift (sendMessageStream (client this) message
                       (signal abortController) promptId) ;;
     for_await_with onStream stream "")
    (fun error =>
       if is_AbortError error
       then throwC (new_Error "Request cancelled")
       else throwC error).

(** A callback of the first kind as code of the caller: it returns or throws
    and touches nothing. *)
Definition of_callback {X} (f : Callback) : Handler X :=
  fun chunk s =>
    (match f (onStream_calls (snd s)) chunk with
     | None => Normal tt
     | Some e => Throw e
     end, s).

(** [streamingExample]: the caller keeps [currentContent]. *)
Definition streamingExample (lib : Library) : Caller string unit :=
  agent <- lift (create lib "/path/to/workspace") ;;
  update (fun _ => "") ;;;
  response <- sendMessage_with agent "解释一下这个项目"
    (Some (fun chunk =>
       update (fun currentContent => currentContent ++ chunk) ;;;
       currentContent <- read ;;
       lift (console_log ("Current content: " ++ currentContent)))) ;;
  lift (console_log ("Final response: " ++ response)).

(** A message posted to the webview: [{ type: 'stream', chunk }] or
    [{ type: 'complete', content }]. *)
Inductive WebviewMessage : Type :=
| StreamMessage (chunk : string)
| CompleteMessage (content : string).

(** [workspaceFolder.uri.fsPath] *)
Record WorkspaceFolder : Type := { fsPath : string }.

(** [webview.postMessage(m)]: the caller's state is what the webview has
    been sent, oldest first. *)
Definition postMessage (m : WebviewMessage) : Caller (list WebviewMessage) unit :=
  update (fun posted => (posted ++ [m])%list).

(** [vscode.workspace.workspaceFolders?.[0]] *)
Definition first_folder (workspaceFolders : option (list WorkspaceFolder))
    : option WorkspaceFolder :=
  match workspaceFolders with
  | Some (folder :: _) => Some folder
  | _ => None
  end.

(** [vscodeExample], given what [vscode.workspace.workspaceFolders] holds. *)
Definition vscodeExample (lib : Library)
    (workspaceFolders : option (list WorkspaceFolder))
    : Caller (list WebviewMessage) unit :=
  match first_folder workspaceFolders with
  | None => throwC (new_Error "No workspace folder")
  | Some workspaceFolder =>
      let workspaceRoot := fsPath workspaceFolder in
      agent <- lift (create lib workspaceRoot) ;;
      response <- sendMessage_with agent "分析当前项目的结构"
        (Some (fun chunk => postMessage (StreamMessage chunk))) ;;
      postMessage (CompleteMessage response)
  end.

(** The state of the component of [ReactExample], as its state updates leave
    it when they are applied in the order they were made, with what
    [console.error] was given. *)
Record Component : Type := {
  response : string;
  loading : bool;
  console_errors : list Js.Value
}.

(** [setResponse(f)], [setLoading(b)], [console.error('Error:', error)] *)
Definition setResponse (f : string -> string) : Caller Component unit :=
  update (fun c => {| response := f (response c);
                      loading := loading c;
                      console_errors := console_errors c |}).

Definition setLoading (b : bool) : Caller Component unit :=
  update (fun c => {| response := response c;
                      loading := b;
                      console_errors := console_errors c |}).

Definition console_error (error : Js.Value) : Caller Component unit :=
  update (fun c => {| response := response c;
                      loading := loading c;
                      console_errors := (console_errors c ++ [error])%list |}).

(** [handleSend] of [ReactExample], given what [agentRef.current] holds. *)
Definition handleSend (agentRef_current : option SimpleAgent) (message : string)
    : Caller Component unit :=
  match agentRef_current with
  | None => retC tt
  | Some agent =>
      setLoading true ;;;
      setResponse (fun _ => "") ;;;
      try_finallyC
        (try_catchC
           (sendMessage_with agent message
              (Some (fun chunk => setResponse (fun prev => prev ++ chunk))) ;;;
            retC tt)
           (fun error => console_error error))
        (setLoading false)
  end.

Local Close Scope caller_scope.

(** The facade [create] returns when it returns one in [w]. *)
Definition created (lib : Library) (workspaceRoot : string) (w : World) : SimpleAgent :=
  let client := {| client_id := length (clients w);
                   stream_of := client_behaviour lib |} in
  new_SimpleAgent
    {| config_id := length (configs w);
       parameters :=
         {| sessionId := uuidv4 lib;
            targetDir := workspaceRoot;
            cwd := workspaceRoot;
            debugMode := false;
            model := DEFAULT_GEMINI_MODEL_AUTO lib;
            embeddingModel := DEFAULT_GEMINI_EMBEDDING_MODEL lib;
            approvalMode := DEFAULT |};
       geminiClient := client |}
    client.

(** Both initializations of the library succeed. *)
Definition initializes (lib : Library) : Prop :=
  Config_initialize_fails lib = None /\
  (client_ready_after_config lib = true \/
   GeminiClient_initialize_fails lib = None).

(** Two worlds that differ at most in the store of configurations and clients. *)
Definition same_but_store (w w1 : World) : Prop :=
  now w1 = now w /\ controllers w1 = controllers w /\ console w1 = console w /\
  onStream_calls w1 = onStream_calls w /\ requests w1 = requests w.

(** The callback of [streamingExample]. *)
Definition streaming_callback : Handler string :=
  fun chunk =>
    bindC (update (fun currentContent => currentContent ++ chunk)) (fun _ =>
    bindC read (fun currentContent =>
    lift (console_log ("Current content: " ++ currentContent)))).



(** The content-chunks of a script up to where the loop is left when nothing
    throws: up to the first finished or error event. *)
Fixpoint delivered (stream : Stream) : list string :=
  match stream with
  | Yield (Content v) rest | YieldFinally (Content v) _ rest =>
      v :: delivered rest
  | Yield Finished _ | Yield (Error _) _ => []
  | YieldFinally Finished _ _ | YieldFinally (Error _) _ _ => []
  | Yield _ rest | YieldFinally _ _ rest => delivered rest
  | Done | Raise _ => []
  end.

(** The same for the answer of the client, which may be no stream at all. *)
Definition delivered_of (answer : Completion Stream) : list string :=
  match answer with
  | Normal stream => delivered stream
  | Throw _ => []
  end.

(** ** Strings, lists and tables of flags *)

Lemma append_nil_r (s : string) : s ++ "" = s.
Proof. induction s as [|a s IH]; simpl; [reflexivity | now rewrite IH]. Qed.

Lemma append_assoc (s t u : string) : (s ++ t) ++ u = s ++ (t ++ u).
Proof. induction s as [|a s IH]; simpl; [reflexivity | now rewrite IH]. Qed.

Lemma append_cancel_l (s t u : string) : s ++ t = s ++ u -> t = u.
Proof.
  induction s as [|a s IH]; simpl; intros H; [exact H |].
  injection H as H. now apply IH.
Qed.

Lemma Number_toString_inj (a b : Z) : Number_toString a = Number_toString b -> a = b.
Proof.
  unfold Number_toString. intros H.
  assert (E : Some (Z.to_int a) = Some (Z.to_int b)).
  { rewrite <- (NilEmpty.isi (Z.to_int a)), <- (NilEmpty.isi (Z.to_int b)).
    now rewrite H. }
  injection E as E.
  rewrite <- (DecimalZ.of_to a), <- (DecimalZ.of_to b). now rewrite E.
Qed.

Lemma promptId_of_inj (sid : string) (t1 t2 : Z) :
  promptId_of sid t1 = promptId_of sid t2 -> t1 = t2.
Proof.
  unfold promptId_of. intros H.
  apply append_cancel_l in H. simpl in H. injection H as H.
  now apply Number_toString_inj.
Qed.

Lemma skipn_length_app {A} (l l' : list A) :
  skipn (List.length l) (l ++ l')%list = l'.
Proof. induction l as [|a l IH]; simpl; [reflexivity | exact IH]. Qed.



Lemma length_put (i : nat) (b : bool) (flags : list bool) :
  length (put i b flags) = length flags.
Proof.
  revert i. induction flags as [|a flags IH]; intros [|i]; simpl;
    try reflexivity.
  now rewrite IH.
Qed.

Lemma nth_put_same (i : nat) (b : bool) (flags : list bool) :
  i < length flags -> nth i (put i b flags) false = b.
Proof.
  revert i. induction flags as [|a flags IH]; intros [|i] H; simpl in *.
  - now apply Nat.nlt_0_r in H.
  - now apply Nat.nlt_0_r in H.
  - reflexivity.
  - apply IH. now apply Nat.succ_lt_mono.
Qed.

Lemma lt_length_snoc {A} (l : list A) (a : A) : length l < length (l ++ [a]).
Proof.
  rewrite length_app, Nat.add_1_r. apply Nat.lt_succ_diag_r.
Qed.

(** ** The [catch] block *)

Lemma is_AbortError_spec (e : Js.Value) :
  is_AbortError e = true <-> exists m, e = ErrorObject "AbortError" m.
Proof.
  unfold is_AbortError. split.
  - destruct e as [n m | n p]; simpl; [| discriminate].
    intros H. apply String.eqb_eq in H. subst n. now exists m.
  - intros [m ->]. reflexivity.
Qed.

Lemma normalized_abort (m : string) :
  normalized (ErrorObject "AbortError" m) = ErrorObject "Error" "Request cancelled".
Proof. reflexivity. Qed.

Lemma normalized_other (e : Js.Value) :
  (forall m, e <> ErrorObject "AbortError" m) -> normalized e = e.
Proof.
  intros H. unfold normalized.
  destruct (is_AbortError e) eqn:E; [| reflexivity].
  apply is_AbortError_spec in E. destruct E as [m ->]. now destruct (H m).
Qed.


(** ** Scripts, one suspension at a time *)

Lemma Stream_suspended_ind (P : Stream -> Prop) :
  P Done ->
  (forall reason, P (Raise reason)) ->
  (forall cleanup event rest, P rest -> P (suspended cleanup event rest)) ->
  forall stream, P stream.
Proof.
  intros Hd Hr Hs.
  induction stream as [event rest IH | | reason | event reason rest IH].
  - now apply (Hs None).
  - exact Hd.
  - apply Hr.
  - now apply (Hs (Some reason)).
Qed.

Lemma script_chunks_suspended (cleanup : option Js.Value)
    (event : ServerGeminiStreamEvent) (rest : Stream) :
  script_chunks (suspended cleanup event rest) =
  match event with
  | Content v => v :: script_chunks rest
  | _ => script_chunks rest
  end.
Proof. destruct cleanup, event; reflexivity. Qed.

Lemma delivered_suspended (cleanup : option Js.Value)
    (event : ServerGeminiStreamEvent) (rest : Stream) :
  delivered (suspended cleanup event rest) =
  match event with
  | Content v => v :: delivered rest
  | Finished | Error _ => []
  | _ => delivered rest
  end.
Proof. destruct cleanup, event; reflexivity. Qed.

(** ** The loop *)

(** One turn of the loop. *)
Lemma for_await_suspended (onStream : option Callback) (cleanup : option Js.Value)
    (event : ServerGeminiStreamEvent) (rest : Stream) (acc : string) (w : World) :
  for_await onStream (suspended cleanup event rest) acc w =
  match event with
  | Content value =>
      bind (notify onStream value)
        (fun _ => for_await onStream rest (acc ++ value)) w
  | Finished =>
      (match cleanup with Some reason => Throw reason | None => Normal acc end, w)
  | Error value =>
      (Throw (new_Error (or_else (error_message value) "Unknown error occurred")), w)
  | ToolCallRequest value =>
      for_await onStream rest acc
        (snd (console_log ("Tool call requested: " ++ name value) w))
  | Other _ => for_await onStream rest acc w
  end.
Proof. destruct cleanup, event; reflexivity. Qed.

Lemma raises_suspended (onStream : option Callback) (seen : list string)
    (cleanup : option Js.Value)
    (event : ServerGeminiStreamEvent) (rest : Stream) (src : Source) (e : Js.Value) :
  event <> Finished ->
  raises onStream seen (Yield event rest) src e ->
  raises onStream seen (suspended cleanup event rest) src e.
Proof.
  intros Hn H. destruct cleanup as [reason|]; [| exact H].
  now apply raises_in_finally.
Qed.

Section Loop.

Variable onStream : option Callback.

(** Over events that are neither finished nor error, with a callback that
    returns each time, the loop only accumulates, notifies and logs. *)
Lemma for_await_yields (events : list ServerGeminiStreamEvent) :
  forall (rest : Stream) (acc : string) (w : World),
    no_terminal events = true ->
    returns_normally onStream (onStream_calls w) (chunks events) = true ->
    for_await onStream (yields events rest) acc w =
    for_await onStream rest (acc ++ join (chunks events)) (after onStream events w).
Proof.
  induction events as [|e es IH]; intros rest acc w Hq Hr.
  - destruct w, onStream; unfold after; simpl;
      now rewrite append_nil_r, ?app_nil_r.
  - destruct e as [v | | v | v | t]; simpl in Hq; try discriminate.
    + simpl in Hr. simpl yields. simpl for_await.
      destruct onStream as [f|].
      * unfold bind, notify, call.
        destruct (f (onStream_calls w) v) eqn:Ef; [discriminate |].
        rewrite IH by (simpl; assumption).
        unfold after; simpl.
        now rewrite append_assoc, <- app_assoc.
      * unfold bind, notify, ret.
        rewrite IH by (simpl; auto; now destruct (chunks es)).
        unfold after; simpl.
        now rewrite append_assoc.
    + simpl yields. simpl for_await. unfold bind, console_log.
      rewrite IH by (simpl; assumption).
      unfold after; simpl.
      now rewrite <- app_assoc.
    + simpl yields. simpl for_await.
      now rewrite IH by assumption.
Qed.

(** Where the stream rejects or the callback throws, the loop throws the same
    value, whatever it has accumulated. *)
Lemma for_await_raises (seen : list string)
    (stream : Stream) (src : Source) (e : Js.Value) :
  raises onStream seen stream src e ->
  forall (acc : string) (w : World),
    onStream_calls w = seen ->
    exists w', for_await onStream stream acc w = (Throw e, w').
Proof.
  induction 1 as [seen e | seen e rest
                 | seen event reason rest src e Hne _ IH
                 | f seen v rest e Hf Hv | seen v rest src e Hr _ IH
                 | seen v rest src e _ IH | seen t rest src e _ IH];
    intros acc w Hw.
  - now exists w.
  - now exists w.
  - destruct event; try (now destruct Hne); exact (IH acc w Hw).
  - simpl. subst onStream. unfold bind, notify, call. rewrite Hw, Hv. eauto.
  - simpl.
    destruct onStream as [f|]; simpl in Hr, IH; unfold bind, notify, call, ret.
    + rewrite Hw. destruct (f seen v); [discriminate |].
      apply IH. reflexivity.
    + now apply IH.
  - simpl. unfold bind, console_log. now apply IH.
  - simpl. now apply IH.
Qed.

(** Conversely, the loop throws only what the stream rejected with, what the
    callback threw, or the [Error] it makes from an error event. *)
Lemma for_await_Throw_inv (stream : Stream) :
  forall (acc : string) (w w' : World) (e : Js.Value),
    for_await onStream stream acc w = (Throw e, w') ->
    (exists src, raises onStream (onStream_calls w) stream src e) \/
    (exists v, e = new_Error (or_else (error_message v) "Unknown error occurred")).
Proof.
  induction stream as [| reason | cleanup event rest IH] using Stream_suspended_ind;
    intros acc w w' e H.
  - discriminate.
  - injection H as <- _. left. exists ByStream. apply raises_reject.
  - rewrite for_await_suspended in H. destruct event as [v | | v | v | t].
    + unfold bind, notify in H. destruct onStream as [f|].
      * unfold call in H.
        destruct (f (onStream_calls w) v) as [e0|] eqn:Ef.
        -- injection H as <- _. left. exists ByCallback.
           apply raises_suspended; [discriminate |].
           now apply raises_callback with (f := f).
        -- apply IH in H. destruct H as [[src H] | H]; [left | now right].
           exists src. apply raises_suspended; [discriminate |].
           apply raises_past_content; [simpl; now rewrite Ef | exact H].
      * unfold ret in H.
        apply IH in H. destruct H as [[src H] | H]; [left | now right].
        exists src. apply raises_suspended; [discriminate |].
        now apply raises_past_content.
    + destruct cleanup as [reason|]; [| discriminate].
      injection H as <- _. left. exists ByStream. apply raises_close.
    + injection H as <- _. right. now exists v.
    + apply IH in H. destruct H as [[src H] | H]; [left | now right].
      exists src. apply raises_suspended; [discriminate |].
      now apply raises_past_tool_call.
    + apply IH in H. destruct H as [[src H] | H]; [left | now right].
      exists src. apply raises_suspended; [discriminate |].
      now apply raises_past_other.
Qed.

(** A rejection the loop runs into is the one the script ends with. *)
Lemma raises_ByStream_rejection (seen : list string)
    (stream : Stream) (src : Source) (e : Js.Value) :
  raises onStream seen stream src e -> src = ByStream -> rejection stream = Some e.
Proof.
  induction 1 as [seen e | seen e rest
                 | seen event reason rest src e Hne _ IH
                 | f seen v rest e Hf Hv | seen v rest src e Hr _ IH
                 | seen v rest src e _ IH | seen t rest src e _ IH];
    intros Hs; simpl; try reflexivity; try discriminate; auto.
  destruct event; try (now destruct Hne); exact (IH Hs).
Qed.


(** The loop reads nothing of the world but what the callback was handed. *)
Lemma for_await_same_calls (stream : Stream) :
  forall (acc : string) (w1 w2 : World),
    same_calls w1 w2 ->
    fst (for_await onStream stream acc w1) = fst (for_await onStream stream acc w2) /\
    same_calls (snd (for_await onStream stream acc w1))
                     (snd (for_await onStream stream acc w2)).
Proof.
  induction stream as [| reason | cleanup event rest IH] using Stream_suspended_ind;
    intros acc w1 w2 Hw; [now split | now split |].
  rewrite !for_await_suspended.
  destruct event as [v | | v | v | t]; try (now split); try (now apply IH).
  unfold bind, notify. destruct onStream as [f|].
  - unfold call. red in Hw. rewrite Hw.
    destruct (f (onStream_calls w2) v).
    + now split.
    + apply IH. reflexivity.
  - unfold ret. now apply IH.
Qed.


(** The loop leaves the clock, the controllers and the requests alone. *)
Lemma for_await_frame (stream : Stream) :
  forall (acc : string) (w : World),
    now (snd (for_await onStream stream acc w)) = now w /\
    controllers (snd (for_await onStream stream acc w)) = controllers w /\
    requests (snd (for_await onStream stream acc w)) = requests w.
Proof.
  induction stream as [| reason | cleanup event rest IH] using Stream_suspended_ind;
    intros acc w; [now repeat split | now repeat split |].
  rewrite !for_await_suspended.
  destruct event as [v | | v | v | t]; try (now repeat split);
    try (now apply IH).
  - unfold bind, notify. destruct onStream as [f|].
    + unfold call. destruct (f (onStream_calls w) v).
      * now repeat split.
      * match goal with |- context [for_await _ _ ?a ?w1] =>
          destruct (IH a w1) as (Hn & Hc & Hq) end.
        rewrite Hn, Hc, Hq. now repeat split.
    + unfold ret. apply IH.
  - match goal with |- context [for_await _ _ ?a ?w1] =>
      destruct (IH a w1) as (Hn & Hc & Hq) end.
    rewrite Hn, Hc, Hq. now repeat split.
Qed.

End Loop.

(** ** A call as a whole *)

(** A call is: open the stream, run the loop from the empty text, pass what
    is thrown through the [catch] block. *)
Lemma sendMessage_unfold (this : SimpleAgent) (message : string)
    (onStream : option Callback) (w : World) :
  sendMessage this message onStream w =
  match opened this message w with
  | Normal stream =>
      match for_await onStream stream "" (started this message w) with
      | (Normal text, w') => (Normal text, w')
      | (Throw e, w') => (Throw (normalized e), w')
      end
  | Throw e => (Throw (normalized e), started this message w)
  end.
Proof.
  unfold sendMessage, sendMessage_try, sendMessage_catch, bind, try_catch,
    Date_now, new_AbortController, sendMessageStream, ret, throw, opened,
    started, promptId_at, fresh_signal, normalized, signal.
  simpl.
  destruct (stream_of _ _ _ _) as [stream | e].
  - destruct (for_await _ _ _ _) as [[text | e] w'];
      [reflexivity | now destruct (is_AbortError e)].
  - now destruct (is_AbortError e).
Qed.

Lemma sendMessage_try_unfold (this : SimpleAgent) (message : string)
    (onStream : option Callback) (w : World) :
  sendMessage_try this message onStream (fresh_signal w) (promptId_at this w)
    (entered w) =
  match opened this message w with
  | Normal stream => for_await onStream stream "" (started this message w)
  | Throw e => (Throw e, started this message w)
  end.
Proof.
  unfold sendMessage_try, bind, sendMessageStream, opened, started, entered.
  simpl. now destruct (stream_of _ _ _ _).
Qed.

Lemma sendMessage_raised (this : SimpleAgent) (message : string)
    (onStream : option Callback) (w : World) (e : Js.Value) :
  opened this message w = Throw e \/
  (exists stream src, opened this message w = Normal stream /\
                      raises onStream (onStream_calls w) stream src e) ->
  fst (sendMessage this message onStream w) = Throw (normalized e).
Proof.
  intros [Ho | (stream & src & Ho & Hr)]; rewrite sendMessage_unfold, Ho.
  - reflexivity.
  - destruct (for_await_raises _ _ _ _ _ Hr "" (started this message w) eq_refl)
      as [w' ->].
    reflexivity.
Qed.

Lemma sendMessage_frame (this : SimpleAgent) (message : string)
    (onStream : option Callback) (w : World) :
  now (snd (sendMessage this message onStream w)) = now w /\
  controllers (snd (sendMessage this message onStream w)) =
    (controllers w ++ [false])%list /\
  requests (snd (sendMessage this message onStream w)) =
    (requests w ++ [{| req_message := message;
                       req_signal := fresh_signal w;
                       req_promptId := promptId_at this w |}])%list.
Proof.
  rewrite sendMessage_unfold.
  destruct (opened this message w) as [stream | e]; [| now repeat split].
  destruct (for_await_frame onStream stream "" (started this message w))
    as (Hn & Hc & Hq).
  destruct (for_await onStream stream "" (started this message w)) as [[text | e] w'];
    simpl in *; now repeat split.
Qed.

Lemma sendMessage_sent (this : SimpleAgent) (message : string)
    (onStream : option Callback) (w : World) :
  sent w (snd (sendMessage this message onStream w)) =
    [{| req_message := message;
        req_signal := fresh_signal w;
        req_promptId := promptId_at this w |}].
Proof.
  unfold sent.
  destruct (sendMessage_frame this message onStream w) as (_ & _ & ->).
  apply skipn_length_app.
Qed.

(** ** The finished event *)




(** ** The error event *)




(** ** Exceptions *)

(** C3: an exception raised while the stream is established (the client's
    call throws) or consumed (the stream rejects, closing it at a finished
    event throws, the callback throws) ends [sendMessage] as follows: an [Error] named [AbortError], whatever its
    message, becomes an [Error] with the message ["Request cancelled"]; any
    other thrown value reaches the caller as it is. *)
Theorem sendMessage_exception (this : SimpleAgent) (message : string)
    (onStream : option Callback) (w : World) (e : Js.Value) :
  opened this message w = Throw e \/
  (exists stream src, opened this message w = Normal stream /\
                      raises onStream (onStream_calls w) stream src e) ->
  (forall m, e = ErrorObject "AbortError" m ->
     fst (sendMessage this message onStream w) =
       Throw (ErrorObject "Error" "Request cancelled")) /\
  ((forall m, e <> ErrorObject "AbortError" m) ->
     fst (sendMessage this message onStream w) = Throw e).
Proof.
  intros H. apply sendMessage_raised in H. rewrite H. split.
  - intros m ->. reflexivity.
  - intros Hn. now rewrite normalized_other.
Qed.

Lemma sendMessage_exception_witness :
  fst (sendMessage
         (sample_agent (Normal (Yield (Content "po")
            (Raise (ErrorObject "AbortError" "The operation was aborted")))))
         "ping" (Some returning) world0) =
    Throw (ErrorObject "Error" "Request cancelled") /\
  fst (sendMessage (sample_agent (Throw (OtherValue (Some "AbortError") "429")))
         "ping" None world0) =
    Throw (OtherValue (Some "AbortError") "429").
Proof.
  split.
  - refine (proj1 (sendMessage_exception
              (sample_agent (Normal (Yield (Content "po")
                 (Raise (ErrorObject "AbortError" "The operation was aborted")))))
              "ping" (Some returning) world0
              (ErrorObject "AbortError" "The operation was aborted") _)
            "The operation was aborted" eq_refl).
    right. eexists. exists ByStream. split; [reflexivity |].
    apply raises_past_content; [reflexivity | apply raises_reject].
  - refine (proj2 (sendMessage_exception
              (sample_agent (Throw (OtherValue (Some "AbortError") "429")))
              "ping" None world0 (OtherValue (Some "AbortError") "429")
              (or_introl eq_refl)) _).
    intros m. discriminate.
Defined.

(** ** The end of the stream *)



(** ** All or nothing *)

(** The text a loop returns is what it carried followed by all the chunks
    up to the finished event or the end of the stream that it returned on. *)
Lemma for_await_Normal_text (onStream : option Callback) (stream : Stream) :
  forall (acc text : string) (w w' : World),
    for_await onStream stream acc w = (Normal text, w') ->
    text = acc ++ join (delivered stream).
Proof.
  induction stream as [| reason | cleanup event rest IH] using Stream_suspended_ind;
    intros acc text w w' H.
  - injection H as <- _. simpl. now rewrite append_nil_r.
  - discriminate.
  - rewrite for_await_suspended in H. rewrite delivered_suspended.
    destruct event as [v | | v | v | t].
    + unfold bind in H.
      destruct (notify onStream v w) as [[[] | e] w1]; [| discriminate].
      apply IH in H. rewrite H. simpl. now rewrite append_assoc.
    + destruct cleanup; [discriminate |].
      injection H as <- _. simpl. now rewrite append_nil_r.
    + discriminate.
    + now apply IH in H.
    + now apply IH in H.
Qed.

(** C5: a call either succeeds with the whole accumulated text or fails with
    no partial result.  When it returns a text, that text is the
    concatenation of all the chunks of the stream up to the finished event,
    or the end of the stream, that it returned on.  And whatever chunks the
    loop has accumulated, the call throws, and so returns none of them, when
    the client throws, on an error event, when the stream rejects (a
    cancellation included), when the callback throws, and when closing the
    stream at the finished event throws. *)
Theorem sendMessage_all_or_nothing (this : SimpleAgent) (message : string)
    (onStream : option Callback) (events : list ServerGeminiStreamEvent)
    (tail : Stream) (w : World) :
  (forall stream text,
     opened this message w = Normal stream ->
     fst (sendMessage this message onStream w) = Normal text ->
     text = join (delivered stream)) /\
  (forall e,
     opened this message w = Throw e ->
     fst (sendMessage this message onStream w) = Throw (normalized e)) /\
  (opened this message w = Normal (yields events tail) ->
   no_terminal events = true ->
   returns_normally onStream (onStream_calls w) (chunks events) = true ->
   (forall cleanup v rest,
      tail = suspended cleanup (Error v) rest ->
      fst (sendMessage this message onStream w) =
        Throw (new_Error (or_else (error_message v) "Unknown error occurred"))) /\
   (forall e,
      tail = Raise e ->
      fst (sendMessage this message onStream w) = Throw (normalized e)) /\
   (forall m,
      tail = Raise (ErrorObject "AbortError" m) ->
      fst (sendMessage this message onStream w) =
        Throw (ErrorObject "Error" "Request cancelled")) /\
   (forall cleanup f v rest e,
      onStream = Some f ->
      tail = suspended cleanup (Content v) rest ->
      f (onStream_calls w ++ chunks events)%list v = Some e ->
      fst (sendMessage this message onStream w) = Throw (normalized e)) /\
   (forall reason rest,
      tail = YieldFinally Finished reason rest ->
      fst (sendMessage this message onStream w) = Throw (normalized reason)) /\
   (tail = Done \/ (exists rest, tail = Yield Finished rest) ->
    fst (sendMessage this message onStream w) = Normal (join (chunks events)))).
Proof.
  split; [| split].
  - intros stream text Ho. rewrite sendMessage_unfold, Ho.
    destruct (for_await onStream stream "" (started this message w))
      as [[t | e] w'] eqn:Hf; [| discriminate].
    simpl. intros H. injection H as <-.
    now apply for_await_Normal_text in Hf.
  - intros e Ho. now rewrite sendMessage_unfold, Ho.
  - intros Ho Hq Hr. rewrite sendMessage_unfold, Ho.
    rewrite for_await_yields by assumption.
    repeat split.
    + intros cleanup v rest ->. now rewrite for_await_suspended.
    + intros e ->. reflexivity.
    + intros m ->. reflexivity.
    + intros cleanup f v rest e -> -> Hf.
      rewrite for_await_suspended. unfold bind, notify, call. simpl.
      now rewrite Hf.
    + intros reason rest ->. reflexivity.
    + intros [-> | [rest ->]]; reflexivity.
Qed.

Lemma sendMessage_all_or_nothing_witness :
  fst (sendMessage
         (sample_agent (Normal (Yield (Content "po")
            (Yield (Content "ng") (Yield (error_event (Some "quota exceeded")) Done)))))
         "ping" (Some returning) world0) =
    Throw (ErrorObject "Error" "quota exceeded") /\
  fst (sendMessage
         (sample_agent (Normal (Yield (Content "po")
            (Yield (Content "ng") (Raise (ErrorObject "AbortError" "aborted"))))))
         "ping" (Some returning) world0) =
    Throw (ErrorObject "Error" "Request cancelled") /\
  fst (sendMessage
         (sample_agent (Normal (Yield (Content "po") (Yield (Content "ng") Done))))
         "ping" (Some returning) world0) = Normal "pong".
Proof.
  split; [| split].
  - refine (proj1 (proj2 (proj2 (sendMessage_all_or_nothing
              (sample_agent (Normal (Yield (Content "po")
                 (Yield (Content "ng")
                    (Yield (error_event (Some "quota exceeded")) Done)))))
              "ping" (Some returning) [Content "po"; Content "ng"]
              (Yield (error_event (Some "quota exceeded")) Done) world0))
              eq_refl eq_refl eq_refl) None _ Done eq_refl).
  - refine (proj1 (proj2 (proj2 (proj2 (proj2 (sendMessage_all_or_nothing
              (sample_agent (Normal (Yield (Content "po")
                 (Yield (Content "ng") (Raise (ErrorObject "AbortError" "aborted"))))))
              "ping" (Some returning) [Content "po"; Content "ng"]
              (Raise (ErrorObject "AbortError" "aborted")) world0))
              eq_refl eq_refl eq_refl))) "aborted" eq_refl).
  - refine (proj2 (proj2 (proj2 (proj2 (proj2 (proj2 (proj2 (sendMessage_all_or_nothing
              (sample_agent (Normal (Yield (Content "po") (Yield (Content "ng") Done))))
              "ping" (Some returning) [Content "po"; Content "ng"] Done world0))
              eq_refl eq_refl eq_refl))))) (or_introl eq_refl)).
Defined.

(** ** Tool-call requests *)



(** ** The request identifier *)

(** C7, the claim fails: two calls on one facade that start in the same
    millisecond hand the client the same request identifier. *)
Lemma same_millisecond_same_promptId :
  map req_promptId
    (requests
       (snd (sendMessage (sample_agent (Normal (Yield Finished Done))) "second" None
          (snd (sendMessage (sample_agent (Normal (Yield Finished Done))) "first" None
             world0))))) =
  ["0b0e7a2c-1762070400000"; "0b0e7a2c-1762070400000"].
Proof. reflexivity. Qed.

(** C7, amended: every call hands the client one request identifier, the
    session identity, a hyphen and the decimal timestamp of the call; two
    calls on one facade get distinct identifiers exactly when their
    timestamps differ. *)
Theorem promptId_distinct_iff (this : SimpleAgent) (m1 m2 : string)
    (cb1 cb2 : option Callback) (w1 w2 : World) :
  map req_promptId (sent w1 (snd (sendMessage this m1 cb1 w1))) =
    [getSessionId (config this) ++ "-" ++ Number_toString (now w1)] /\
  (map req_promptId (sent w1 (snd (sendMessage this m1 cb1 w1))) <>
   map req_promptId (sent w2 (snd (sendMessage this m2 cb2 w2))) <->
   now w1 <> now w2).
Proof.
  rewrite !sendMessage_sent. simpl. split; [reflexivity |].
  unfold promptId_at. split; intros H E; apply H.
  - now rewrite E.
  - injection E as E. now apply promptId_of_inj in E.
Qed.

(** ** Creation *)

(** C8: when the initialization of the configuration or of the client fails,
    [create] fails with that very failure and produces no facade; when
    [create] returns a facade, its configuration and its client are both
    initialized, the client being the one the configuration hands out. *)
Theorem create_all_or_nothing (lib : Library) (workspaceRoot : string) (w : World) :
  (forall e, Config_initialize_fails lib = Some e ->
     fst (create lib workspaceRoot w) = Throw e) /\
  (forall e, Config_initialize_fails lib = None ->
     client_ready_after_config lib = false ->
     GeminiClient_initialize_fails lib = Some e ->
     fst (create lib workspaceRoot w) = Throw e) /\
  (forall agent w', create lib workspaceRoot w = (Normal agent, w') ->
     config_ready (getConfig agent) w' = true /\
     client_ready (getClient agent) w' = true /\
     getGeminiClient (getConfig agent) = getClient agent /\
     targetDir (parameters (getConfig agent)) = workspaceRoot /\
     cwd (parameters (getConfig agent)) = workspaceRoot).
Proof.
  unfold create, new_Config, Config_initialize, isInitialized,
    GeminiClient_initialize, getGeminiClient, bind, ret, throw.
  split; [| split].
  - intros e ->. reflexivity.
  - intros e -> Hc ->. simpl.
    rewrite nth_put_same, Hc by apply lt_length_snoc. reflexivity.
  - intros agent w'.
    destruct (Config_initialize_fails lib); [discriminate |]. simpl.
    rewrite nth_put_same by apply lt_length_snoc.
    destruct (client_ready_after_config lib) eqn:Hc; simpl.
    + intros H. injection H as <- <-.
      unfold config_ready, client_ready, getConfig, getClient. simpl.
      rewrite !nth_put_same by apply lt_length_snoc. now repeat split.
    + destruct (GeminiClient_initialize_fails lib); [discriminate |].
      intros H. injection H as <- <-.
      unfold config_ready, client_ready, getConfig, getClient. simpl.
      rewrite !nth_put_same
        by (rewrite ?length_put; apply lt_length_snoc).
      now repeat split.
Qed.

Lemma create_all_or_nothing_witness :
  fst (create failing_library "/path/to/workspace" world0) =
    Throw (ErrorObject "Error" "no credentials") /\
  (forall agent w',
     create sample_library "/path/to/workspace" world0 = (Normal agent, w') ->
     config_ready (getConfig agent) w' = true /\
     client_ready (getClient agent) w' = true /\
     getGeminiClient (getConfig agent) = getClient agent /\
     targetDir (parameters (getConfig agent)) = "/path/to/workspace" /\
     cwd (parameters (getConfig agent)) = "/path/to/workspace").
Proof.
  split.
  - apply (proj1 (proj2 (create_all_or_nothing failing_library
                           "/path/to/workspace" world0))); reflexivity.
  - apply (proj2 (proj2 (create_all_or_nothing sample_library
                           "/path/to/workspace" world0))).
Defined.

(** ** Cancellation *)

(** C9, the claim fails: the client hands out a stream, the stream never
    rejects, and yet the call takes the ["Request cancelled"] branch, on an
    [AbortError] thrown by the caller's own callback. *)
Lemma cancelled_by_callback :
  opened (sample_agent (Normal (Yield (Content "po") (Yield Finished Done))))
    "ping" world0 = Normal (Yield (Content "po") (Yield Finished Done)) /\
  rejection (Yield (Content "po") (Yield Finished Done)) = None /\
  cancelled_on (sample_agent (Normal (Yield (Content "po") (Yield Finished Done))))
    "ping" (Some aborting) world0 (ErrorObject "AbortError" "stop") /\
  fst (sendMessage (sample_agent (Normal (Yield (Content "po") (Yield Finished Done))))
         "ping" (Some aborting) world0) =
    Throw (ErrorObject "Error" "Request cancelled").
Proof.
  repeat split. eexists. split; reflexivity.
Qed.

(** C9, amended: every call makes a fresh [AbortController], hands its signal
    to the client's stream and never aborts it: the signal is still not
    aborted when the call ends.  The ["Request cancelled"] branch is taken
    only on an [Error] named [AbortError] that the client's stream-opening
    call, the stream, or the [onStream] callback raised. *)
Theorem cancellation_only_raised_outside (this : SimpleAgent) (message : string)
    (onStream : option Callback) (w : World) :
  controllers (snd (sendMessage this message onStream w)) =
    (controllers w ++ [false])%list /\
  map req_signal (sent w (snd (sendMessage this message onStream w))) =
    [fresh_signal w] /\
  aborted (fresh_signal w) (snd (sendMessage this message onStream w)) = false /\
  (forall e, cancelled_on this message onStream w e ->
     fst (sendMessage this message onStream w) =
       Throw (ErrorObject "Error" "Request cancelled") /\
     (exists m, e = ErrorObject "AbortError" m) /\
     (opened this message w = Throw e \/
      exists stream src,
        opened this message w = Normal stream /\
        raises onStream (onStream_calls w) stream src e)).
Proof.
  destruct (sendMessage_frame this message onStream w) as (_ & Hc & _).
  split; [exact Hc |].
  split; [now rewrite sendMessage_sent |].
  split.
  { unfold aborted, fresh_signal. rewrite Hc. simpl.
    rewrite app_nth2 by apply Nat.le_refl. now rewrite Nat.sub_diag. }
  intros e (w' & Ht & Ha).
  rewrite sendMessage_try_unfold in Ht.
  assert (Hraised :
    opened this message w = Throw e \/
    exists stream src,
      opened this message w = Normal stream /\
      raises onStream (onStream_calls w) stream src e).
  { destruct (opened this message w) as [stream | e0].
    - right. exists stream.
      apply for_await_Throw_inv in Ht. destruct Ht as [[src Hr] | [v ->]].
      + now exists src.
      + discriminate.
    - left. now injection Ht as -> _. }
  split; [| split; [now apply is_AbortError_spec | exact Hraised]].
  rewrite (sendMessage_raised _ _ _ _ _ Hraised).
  unfold normalized. now rewrite Ha.
Qed.

Lemma cancellation_only_raised_outside_witness :
  fst (sendMessage
         (sample_agent (Throw (ErrorObject "AbortError" "This operation was aborted")))
         "ping" None world0) =
    Throw (ErrorObject "Error" "Request cancelled").
Proof.
  refine (proj1 (proj2 (proj2 (proj2 (cancellation_only_raised_outside
            (sample_agent (Throw (ErrorObject "AbortError" "This operation was aborted")))
            "ping" None world0)))
          (ErrorObject "AbortError" "This operation was aborted") _)).
  eexists. split; reflexivity.
Defined.

(** ** The message *)

(** C10: [sendMessage] does not look at its message.  Whatever the message,
    the empty string included, the client's stream-opening call receives it
    as it is; the call behaves as the client's answer makes it behave; and a
    failure is always one that the client, the stream, the callback or an
    error event of the stream brought about. *)
Theorem sendMessage_forwards_message (this : SimpleAgent) (message : string)
    (onStream : option Callback) (w : World) :
  sent w (snd (sendMessage this message onStream w)) =
    [{| req_message := message;
        req_signal := fresh_signal w;
        req_promptId := promptId_at this w |}] /\
  (forall message',
     opened this message' w = opened this message w ->
     fst (sendMessage this message' onStream w) =
       fst (sendMessage this message onStream w)) /\
  (forall e,
     fst (sendMessage this message onStream w) = Throw e ->
     exists e0,
       e = normalized e0 /\
       (opened this message w = Throw e0 \/
        exists stream,
          opened this message w = Normal stream /\
          ((exists src, raises onStream (onStream_calls w) stream src e0) \/
           (exists v, e0 = new_Error (or_else (error_message v)
                                        "Unknown error occurred"))))).
Proof.
  split; [apply sendMessage_sent |]. split.
  - intros message' Ho. rewrite !sendMessage_unfold, Ho.
    destruct (opened this message w) as [stream | e]; [| reflexivity].
    destruct (for_await_same_calls onStream stream ""
                (started this message' w) (started this message w) eq_refl)
      as [Hr _].
    destruct (for_await onStream stream "" (started this message' w)) as [r1 w1].
    destruct (for_await onStream stream "" (started this message w)) as [r2 w2].
    simpl in Hr. subst r2. now destruct r1.
  - intros e. rewrite sendMessage_unfold.
    destruct (opened this message w) as [stream | e0].
    + destruct (for_await onStream stream "" (started this message w))
        as [[text | e0] w'] eqn:Hf; simpl; [discriminate |].
      intros H. injection H as <-. exists e0. split; [reflexivity |].
      right. exists stream. split; [reflexivity |].
      exact (for_await_Throw_inv _ _ _ _ _ _ Hf).
    + simpl. intros H. injection H as <-. exists e0. auto.
Qed.

Lemma sendMessage_forwards_message_witness :
  sent world0
    (snd (sendMessage (sample_agent (Normal (Yield Finished Done))) "" None world0)) =
    [{| req_message := "";
        req_signal := {| of_controller := 0 |};
        req_promptId := "0b0e7a2c-1762070400000" |}] /\
  fst (sendMessage (sample_agent (Normal (Yield Finished Done))) "" None world0) =
  fst (sendMessage (sample_agent (Normal (Yield Finished Done))) "ping" None world0).
Proof.
  split.
  - exact (proj1 (sendMessage_forwards_message
                    (sample_agent (Normal (Yield Finished Done))) "" None world0)).
  - exact (proj1 (proj2 (sendMessage_forwards_message
                    (sample_agent (Normal (Yield Finished Done))) "ping" None world0))
             "" eq_refl).
Defined.

(** ** More on the loop: what is skipped, what is never reached *)

Lemma join_app (a b : list string) : join (a ++ b) = join a ++ join b.
Proof.
  induction a as [|c a IH]; simpl; [reflexivity |].
  now rewrite IH, append_assoc.
Qed.

Section LoopSkips.

Variable onStream : option Callback.




(** The callback is handed a beginning of the chunks of the script. *)
Lemma for_await_hands_prefix (stream : Stream) :
  forall (acc : string) (w : World),
    exists k,
      onStream_calls (snd (for_await onStream stream acc w)) =
      handed onStream (onStream_calls w) (firstn k (script_chunks stream)).
Proof.
  induction stream as [| reason | cleanup event rest IH] using Stream_suspended_ind;
    intros acc w.
  - exists 0. destruct onStream; simpl; now rewrite ?app_nil_r.
  - exists 0. destruct onStream; simpl; now rewrite ?app_nil_r.
  - rewrite for_await_suspended, script_chunks_suspended.
    destruct event as [v | | v | v | t].
    + unfold bind, notify. destruct onStream as [f|] eqn:Eo.
      * unfold call. destruct (f (onStream_calls w) v) as [e|].
        -- exists 1. reflexivity.
        -- match goal with |- context [for_await _ _ ?a ?w1] =>
             destruct (IH a w1) as [k Hk] end.
           exists (S k). rewrite Hk. simpl. now rewrite <- app_assoc.
      * unfold ret. destruct (IH (acc ++ v) w) as [k Hk].
        exists (S k). exact Hk.
    + exists 0. destruct onStream; simpl; now rewrite ?app_nil_r.
    + exists 0. destruct onStream; simpl; now rewrite ?app_nil_r.
    + match goal with |- context [for_await _ _ ?a ?w1] =>
        destruct (IH a w1) as [k Hk] end.
      now exists k.
    + apply IH.
Qed.

End LoopSkips.

(** With a callback, the text a loop returns is what it carried followed by
    the chunks it handed to the callback. *)
Lemma for_await_text_is_handed (f : Callback) (stream : Stream) :
  forall (acc text : string) (w w' : World),
    for_await (Some f) stream acc w = (Normal text, w') ->
    exists handed_now,
      onStream_calls w' = (onStream_calls w ++ handed_now)%list /\
      text = acc ++ join handed_now.
Proof.
  induction stream as [| reason | cleanup event rest IH] using Stream_suspended_ind;
    intros acc text w w' H.
  - injection H as <- <-. exists []. now rewrite app_nil_r, append_nil_r.
  - discriminate.
  - rewrite for_await_suspended in H. destruct event as [v | | v | v | t].
    + unfold bind, notify, call in H.
      destruct (f (onStream_calls w) v); [discriminate |].
      apply IH in H. destruct H as (d & Hc & Ht). simpl in Hc.
      exists (v :: d). split.
      * now rewrite Hc, <- app_assoc.
      * rewrite Ht. simpl. now rewrite append_assoc.
    + destruct cleanup; [discriminate |].
      injection H as <- <-. exists []. now rewrite app_nil_r, append_nil_r.
    + discriminate.
    + apply IH in H. exact H.
    + apply IH in H. exact H.
Qed.

Lemma sendMessage_snd (this : SimpleAgent) (message : string)
    (onStream : option Callback) (w : World) :
  snd (sendMessage this message onStream w) =
  match opened this message w with
  | Normal stream => snd (for_await onStream stream "" (started this message w))
  | Throw _ => started this message w
  end.
Proof.
  rewrite sendMessage_unfold.
  destruct (opened this message w) as [stream | e]; [| reflexivity].
  now destruct (for_await onStream stream "" (started this message w)) as [[t | e] w'].
Qed.


(** ** Events the loop passes over or never reaches *)





(** ** What the callback is handed *)

(** X3: whatever the stream and however the call ends, the callback is handed
    a beginning of the content-chunks of the stream, one by one and in the
    order of the stream; when the client throws instead of handing out a
    stream, or when there is no callback, nothing is handed. *)
Theorem callback_handed_prefix (this : SimpleAgent) (message : string)
    (onStream : option Callback) (w : World) :
  match opened this message w with
  | Normal stream =>
      exists k,
        onStream_calls (snd (sendMessage this message onStream w)) =
        handed onStream (onStream_calls w) (firstn k (script_chunks stream))
  | Throw _ =>
      onStream_calls (snd (sendMessage this message onStream w)) = onStream_calls w
  end.
Proof.
  rewrite sendMessage_snd.
  destruct (opened this message w) as [stream | e]; [| reflexivity].
  destruct (for_await_hands_prefix onStream stream "" (started this message w))
    as [k Hk].
  now exists k.
Qed.

(** X4: when a call with a callback returns, the text it returns is the
    concatenation of the chunks it handed to the callback during the call:
    a caller that appends the chunks has the response. *)
Theorem returned_text_is_handed (this : SimpleAgent) (message : string)
    (f : Callback) (w w' : World) (text : string) :
  sendMessage this message (Some f) w = (Normal text, w') ->
  exists handed_now,
    onStream_calls w' = (onStream_calls w ++ handed_now)%list /\
    text = join handed_now.
Proof.
  rewrite sendMessage_unfold.
  destruct (opened this message w) as [stream | e]; [| discriminate].
  destruct (for_await (Some f) stream "" (started this message w))
    as [[t | e] w1] eqn:Hf; [| discriminate].
  intros H. injection H as <- <-.
  apply for_await_text_is_handed in Hf. exact Hf.
Qed.

Lemma returned_text_is_handed_witness :
  exists handed_now,
    ["po"; "ng"] = ([] ++ handed_now)%list /\ "pong" = join handed_now.
Proof.
  exact (returned_text_is_handed
           (sample_agent (Normal (Yield (Content "po")
              (Yield (ToolCallRequest read_file_call)
                 (Yield (Content "ng") (Yield Finished Done))))))
           "ping" returning world0 _ "pong" eq_refl).
Defined.



(** ** The console *)



(** ** What a call never throws *)

(** X9: [sendMessage] never fails with an [Error] named [AbortError]: the
    [catch] block replaces every one of them. *)
Theorem sendMessage_never_AbortError (this : SimpleAgent) (message : string)
    (onStream : option Callback) (w : World) (e : Js.Value) :
  fst (sendMessage this message onStream w) = Throw e ->
  forall m, e <> ErrorObject "AbortError" m.
Proof.
  rewrite sendMessage_unfold. intros H m ->.
  assert (Hn : forall e0, normalized e0 <> ErrorObject "AbortError" m).
  { intros e0. unfold normalized. destruct (is_AbortError e0) eqn:E.
    - discriminate.
    - intros ->. discriminate. }
  destruct (opened this message w) as [stream | e0].
  - destruct (for_await onStream stream "" (started this message w)) as [[t | e0] w'];
      [discriminate |].
    injection H as H. now apply (Hn e0).
  - injection H as H. now apply (Hn e0).
Qed.

Lemma sendMessage_never_AbortError_witness :
  ErrorObject "Error" "Request cancelled" <> ErrorObject "AbortError" "stop".
Proof.
  exact (sendMessage_never_AbortError
           (sample_agent (Normal (Yield (Content "po") Done)))
           "ping" (Some aborting) world0
           (ErrorObject "Error" "Request cancelled") eq_refl "stop").
Defined.

(** ** One controller for each call *)

Lemma run_all_grows (calls : list Call) :
  forall w : World,
    exists reqs,
      requests (run_all calls w) = (requests w ++ reqs)%list /\
      map req_signal reqs =
        map (fun i => {| of_controller := i |})
          (seq (length (controllers w)) (length calls)) /\
      controllers (run_all calls w) =
        (controllers w ++ repeat false (length calls))%list.
Proof.
  induction calls as [|c calls IH]; intros w; simpl.
  - exists []. now rewrite !app_nil_r.
  - destruct (sendMessage_frame (call_agent c) (call_message c) (call_onStream c) w)
      as (_ & Hc & Hq).
    destruct (IH (snd (sendMessage (call_agent c) (call_message c) (call_onStream c) w)))
      as (reqs & Hr & Hs & Hk).
    rewrite Hc in Hs, Hk. rewrite Hq in Hr.
    rewrite length_app, Nat.add_1_r in Hs.
    eexists. split; [| split].
    + rewrite Hr, <- app_assoc. reflexivity.
    + simpl. now rewrite Hs.
    + rewrite Hk, <- app_assoc. reflexivity.
Qed.

(** X7: each call gets a controller of its own.  After any sequence of calls,
    on whatever facades and however each of them ended, the signals the
    client was handed are pairwise distinct, one new controller per call, and
    none of these controllers has been aborted. *)
Theorem controller_per_call (calls : list Call) (w : World) :
  map req_signal (sent w (run_all calls w)) =
    map (fun i => {| of_controller := i |})
      (seq (length (controllers w)) (length calls)) /\
  NoDup (map req_signal (sent w (run_all calls w))) /\
  controllers (run_all calls w) =
    (controllers w ++ repeat false (length calls))%list.
Proof.
  destruct (run_all_grows calls w) as (reqs & Hr & Hs & Hk).
  assert (E : sent w (run_all calls w) = reqs).
  { unfold sent. rewrite Hr. apply skipn_length_app. }
  rewrite E, Hs. split; [reflexivity | split; [| exact Hk]].
  apply Injective_map_NoDup; [| apply seq_NoDup].
  intros i j H. now injection H.
Qed.

(** ** When [create] succeeds *)

(** X8: [create] returns a facade exactly when the initialization of the
    configuration succeeds and the client either is initialized already or
    is initialized successfully; a client that is initialized already is not
    initialized again, so that a failure it would meet does not count. *)
Theorem create_succeeds_iff (lib : Library) (workspaceRoot : string) (w : World) :
  (exists agent w', create lib workspaceRoot w = (Normal agent, w')) <->
  Config_initialize_fails lib = None /\
  (client_ready_after_config lib = true \/
   GeminiClient_initialize_fails lib = None).
Proof.
  unfold create, new_Config, Config_initialize, isInitialized,
    GeminiClient_initialize, getGeminiClient, bind, ret, throw.
  destruct (Config_initialize_fails lib) as [e|]; simpl.
  - split; [intros (agent & w' & H); discriminate | intros [H _]; discriminate].
  - rewrite nth_put_same by apply lt_length_snoc.
    destruct (client_ready_after_config lib); simpl.
    + split; [auto | eauto].
    + destruct (GeminiClient_initialize_fails lib) as [e|]; simpl.
      * split; [intros (agent & w' & H); discriminate |].
        intros [_ [H | H]]; discriminate.
      * split; [auto | eauto].
Qed.

(** ** Callbacks that are code of the caller *)

(** One turn of the second rendering of the loop. *)
Lemma for_await_with_suspended {X : Type} (onStream : option (Handler X))
    (cleanup : option Js.Value) (event : ServerGeminiStreamEvent) (rest : Stream)
    (acc : string) (s : X * World) :
  for_await_with onStream (suspended cleanup event rest) acc s =
  match event with
  | Content value =>
      bindC (notify_with onStream value)
        (fun _ => for_await_with onStream rest (acc ++ value)) s
  | Finished =>
      (match cleanup with Some reason => Throw reason | None => Normal acc end, s)
  | Error value =>
      (Throw (new_Error (or_else (error_message value) "Unknown error occurred")), s)
  | ToolCallRequest value =>
      for_await_with onStream rest acc
        (fst s, snd (console_log ("Tool call requested: " ++ name value) (snd s)))
  | Other _ => for_await_with onStream rest acc s
  end.
Proof. destruct cleanup, event; reflexivity. Qed.

Section Callers.

Context {X : Type}.

(** With a callback that only returns or throws, the second rendering of the
    loop is the first. *)
Lemma for_await_with_of_callback (onStream : option Callback) (stream : Stream) :
  forall (acc : string) (x : X) (w : World),
    for_await_with (option_map of_callback onStream) stream acc (x, w) =
    (fst (for_await onStream stream acc w),
     (x, snd (for_await onStream stream acc w))).
Proof.
  induction stream as [| reason | cleanup event rest IH] using Stream_suspended_ind;
    intros acc x w; [reflexivity | reflexivity |].
  rewrite for_await_with_suspended, !for_await_suspended.
  destruct event as [v | | v | v | t]; simpl; try reflexivity.
  - unfold bindC, bind. destruct onStream as [f|]; simpl.
    + unfold of_callback, call. simpl.
      destruct (f (onStream_calls w) v); [reflexivity | apply IH].
    + apply IH.
  - apply IH.
  - apply IH.
Qed.

Lemma sendMessage_with_of_callback (this : SimpleAgent) (message : string)
    (onStream : option Callback) (x : X) (w : World) :
  sendMessage_with this message (option_map of_callback onStream) (x, w) =
  (fst (sendMessage this message onStream w),
   (x, snd (sendMessage this message onStream w))).
Proof.
  unfold sendMessage_with, sendMessage, sendMessage_try, sendMessage_catch,
    bindC, bind, try_catchC, try_catch, lift, Date_now, new_AbortController,
    sendMessageStream, retC, ret, throwC, throw.
  simpl.
  destruct (stream_of _ _ _ _) as [stream | e].
  - rewrite for_await_with_of_callback.
    destruct (for_await onStream stream "" _) as [[text | e] w']; simpl;
      [reflexivity | now destruct (is_AbortError e)].
  - now destruct (is_AbortError e).
Qed.

Lemma sendMessage_with_unfold (this : SimpleAgent) (message : string)
    (onStream : option (Handler X)) (x : X) (w : World) :
  sendMessage_with this message onStream (x, w) =
  match opened this message w with
  | Normal stream =>
      match for_await_with onStream stream "" (x, started this message w) with
      | (Normal text, s) => (Normal text, s)
      | (Throw e, s) => (Throw (normalized e), s)
      end
  | Throw e => (Throw (normalized e), (x, started this message w))
  end.
Proof.
  unfold sendMessage_with, bindC, try_catchC, lift, Date_now,
    new_AbortController, sendMessageStream, retC, throwC, opened, started,
    promptId_at, fresh_signal, normalized, signal.
  simpl.
  destruct (stream_of _ _ _ _) as [stream | e].
  - destruct (for_await_with _ _ _ _) as [[text | e] s];
      [reflexivity | now destruct (is_AbortError e)].
  - now destruct (is_AbortError e).
Qed.

(** A callback that only changes what the caller keeps: the call ends as it
    does with a callback that just returns, and the caller's state has taken
    in the chunks up to the first finished or error event, in order. *)
Lemma for_await_with_update (g : string -> X -> X) (stream : Stream) :
  forall (acc : string) (x : X) (w : World),
    for_await_with (Some (fun chunk => update (g chunk))) stream acc (x, w) =
    (fst (for_await (Some returning) stream acc w),
     (fold_left (fun x c => g c x) (delivered stream) x,
      snd (for_await (Some returning) stream acc w))).
Proof.
  induction stream as [| reason | cleanup event rest IH] using Stream_suspended_ind;
    intros acc x w; [reflexivity | reflexivity |].
  rewrite for_await_with_suspended, !for_await_suspended, delivered_suspended.
  destruct event as [v | | v | v | t]; simpl; try reflexivity.
  - unfold bindC, bind, update, notify, call, returning. simpl. apply IH.
  - apply IH.
  - apply IH.
Qed.

Lemma sendMessage_with_update (g : string -> X -> X) (this : SimpleAgent)
    (message : string) (x : X) (w : World) :
  sendMessage_with this message (Some (fun chunk => update (g chunk))) (x, w) =
  (fst (sendMessage this message (Some returning) w),
   (fold_left (fun x c => g c x) (delivered_of (opened this message w)) x,
    snd (sendMessage this message (Some returning) w))).
Proof.
  rewrite sendMessage_with_unfold, sendMessage_unfold.
  destruct (opened this message w) as [stream | e]; [| reflexivity].
  rewrite for_await_with_update.
  now destruct (for_await (Some returning) stream "" (started this message w))
    as [[t | e] w'].
Qed.

End Callers.

(** With a callback that just returns, the text returned is made of the
    chunks up to the first finished event. *)
Lemma for_await_returning_text (stream : Stream) :
  forall (acc text : string) (w w' : World),
    for_await (Some returning) stream acc w = (Normal text, w') ->
    text = acc ++ join (delivered stream).
Proof. apply for_await_Normal_text. Qed.

Lemma sendMessage_returning_text (this : SimpleAgent) (message : string)
    (w : World) (text : string) :
  fst (sendMessage this message (Some returning) w) = Normal text ->
  text = join (delivered_of (opened this message w)).
Proof.
  rewrite sendMessage_unfold.
  destruct (opened this message w) as [stream | e]; [| discriminate].
  destruct (for_await (Some returning) stream "" (started this message w))
    as [[t | e] w'] eqn:Hf; [| discriminate].
  simpl. intros H. injection H as <-.
  now apply for_await_returning_text in Hf.
Qed.

(** ** What [create] leaves *)

Lemma create_cases (lib : Library) (workspaceRoot : string) (w : World) :
  exists w1,
    same_but_store w w1 /\
    ((initializes lib /\
      create lib workspaceRoot w = (Normal (created lib workspaceRoot w), w1)) \/
     (~ initializes lib /\
      exists e, create lib workspaceRoot w = (Throw e, w1))).
Proof.
  unfold create, created, initializes, new_Config, Config_initialize,
    isInitialized, GeminiClient_initialize, getGeminiClient, bind, ret, throw.
  destruct (Config_initialize_fails lib) as [e|]; simpl.
  - eexists. split; [| right; split; [| eauto]].
    + now repeat split.
    + intros [H _]. discriminate.
  - rewrite nth_put_same by apply lt_length_snoc.
    destruct (client_ready_after_config lib); simpl.
    + eexists. split; [| left; split; [auto | reflexivity]]. now repeat split.
    + destruct (GeminiClient_initialize_fails lib) as [e|]; simpl.
      * eexists. split; [| right; split; [| eauto]].
        -- now repeat split.
        -- intros [_ [H | H]]; discriminate.
      * eexists. split; [| left; split; [auto | reflexivity]]. now repeat split.
Qed.

Lemma opened_created (lib : Library) (workspaceRoot message : string) (w w1 : World) :
  same_but_store w w1 ->
  opened (created lib workspaceRoot w) message w1 =
  client_behaviour lib message (fresh_signal w) (promptId_of (uuidv4 lib) (now w)).
Proof.
  intros (Hn & Hc & _). unfold opened, fresh_signal, promptId_at. simpl.
  unfold getSessionId. simpl. now rewrite Hn, Hc.
Qed.

(** ** [basicExample] *)




(** ** [streamingExample] *)

(** The callback keeps [currentContent] equal to what the loop accumulates. *)
Lemma for_await_streaming_text (stream : Stream) :
  forall (acc text cur : string) (w w' : World),
    for_await_with (Some streaming_callback) stream acc (acc, w) =
      (Normal text, (cur, w')) ->
    cur = text.
Proof.
  induction stream as [| reason | cleanup event rest IH] using Stream_suspended_ind;
    intros acc text cur w w' H.
  - now injection H as <- <- _.
  - discriminate.
  - rewrite for_await_with_suspended in H. destruct event as [v | | v | v | t].
    + unfold bindC, notify_with, streaming_callback, update, read, lift,
        console_log in H. simpl in H. now apply IH in H.
    + destruct cleanup; [discriminate |]. now injection H as <- <- _.
    + discriminate.
    + now apply IH in H.
    + now apply IH in H.
Qed.


(** X11: whenever [streamingExample] returns, the text that its callback has
    built up in [currentContent], chunk by chunk, is the response that
    [sendMessage] returned: the last line on the console is
    ["Final response: "] followed by it. *)
Theorem streamingExample_content_is_response (lib : Library)
    (x currentContent : string) (w w' : World) :
  streamingExample lib (x, w) = (Normal tt, (currentContent, w')) ->
  exists earlier,
    console w' = (earlier ++ [("Final response: " ++ currentContent)%string])%list.
Proof.
  unfold streamingExample, bindC, lift, update. simpl.
  destruct (create lib "/path/to/workspace" w) as [[agent | e] w1];
    [| discriminate]. simpl.
  rewrite sendMessage_with_unfold.
  match goal with |- context [opened agent ?m w1] =>
    destruct (opened agent m w1) as [stream | e]; [| discriminate] end.
  change (fun chunk : string => _) with streaming_callback.
  match goal with |- context [for_await_with ?h stream "" ?s] =>
    destruct (for_await_with h stream "" s)
      as [[text | e] [cur w2]] eqn:Hf; [| discriminate] end.
  apply for_await_streaming_text in Hf. subst cur.
  unfold console_log. simpl. intros H. injection H as <- <-. simpl.
  now exists (console w2).
Qed.

Lemma streamingExample_content_is_response_witness :
  fst (snd (streamingExample chatty_library ("", world0))) = "pong" /\
  exists earlier,
    console (snd (snd (streamingExample chatty_library ("", world0)))) =
      (earlier ++ ["Final response: pong"])%list.
Proof.
  split; [reflexivity |].
  refine (streamingExample_content_is_response chatty_library "" "pong" world0
            (snd (snd (streamingExample chatty_library ("", world0)))) _).
  vm_compute. reflexivity.
Defined.



(** ** [vscodeExample] *)

Lemma fold_left_posts (chunks : list string) :
  forall posted : list WebviewMessage,
    fold_left (fun posted c => (posted ++ [StreamMessage c])%list) chunks posted =
    (posted ++ map StreamMessage chunks)%list.
Proof.
  induction chunks as [|c cs IH]; intros posted; simpl.
  - now rewrite app_nil_r.
  - now rewrite IH, <- app_assoc.
Qed.

Lemma sendMessage_with_postMessage (this : SimpleAgent) (message : string)
    (posted : list WebviewMessage) (w : World) :
  sendMessage_with this message
    (Some (fun chunk => postMessage (StreamMessage chunk))) (posted, w) =
  (fst (sendMessage this message (Some returning) w),
   ((posted ++ map StreamMessage (delivered_of (opened this message w)))%list,
    snd (sendMessage this message (Some returning) w))).
Proof.
  unfold postMessage.
  rewrite (sendMessage_with_update
             (fun chunk posted => (posted ++ [StreamMessage chunk])%list)).
  now rewrite fold_left_posts.
Qed.


(** X14: with a workspace folder and a library that initializes,
    [vscodeExample] posts one [stream] message per chunk up to the first
    finished or error event, in the order of the stream, and then, when the
    call returned, one [complete] message whose content is the concatenation
    of these chunks; when the call failed, the [stream] messages stay and no
    [complete] message follows. *)
Theorem vscodeExample_posts (lib : Library) (folder : WorkspaceFolder)
    (others : list WorkspaceFolder) (posted : list WebviewMessage) (w : World) :
  initializes lib ->
  fst (snd (vscodeExample lib (Some (folder :: others)) (posted, w))) =
    (posted ++
     map StreamMessage
       (delivered_of (client_behaviour lib "分析当前项目的结构" (fresh_signal w)
                        (promptId_of (uuidv4 lib) (now w)))) ++
     match fst (vscodeExample lib (Some (folder :: others)) (posted, w)) with
     | Normal _ =>
         [CompleteMessage
            (join (delivered_of
                     (client_behaviour lib "分析当前项目的结构" (fresh_signal w)
                        (promptId_of (uuidv4 lib) (now w)))))]
     | Throw _ => []
     end)%list.
Proof.
  intros Hi.
  destruct (create_cases lib (fsPath folder) w)
    as (w1 & Hs & [[_ Hc] | [Hn _]]); [| now destruct Hn].
  assert (E :
    vscodeExample lib (Some (folder :: others)) (posted, w) =
    match fst (sendMessage (created lib (fsPath folder) w)
                 "分析当前项目的结构" (Some returning) w1) with
    | Normal text =>
        (Normal tt,
         ((posted ++
           map StreamMessage
             (delivered_of (opened (created lib (fsPath folder) w)
                              "分析当前项目的结构" w1)) ++
           [CompleteMessage text])%list,
          snd (sendMessage (created lib (fsPath folder) w)
                 "分析当前项目的结构" (Some returning) w1)))
    | Throw e =>
        (Throw e,
         ((posted ++
           map StreamMessage
             (delivered_of (opened (created lib (fsPath folder) w)
                              "分析当前项目的结构" w1)))%list,
          snd (sendMessage (created lib (fsPath folder) w)
                 "分析当前项目的结构" (Some returning) w1)))
    end).
  { unfold vscodeExample. simpl first_folder. cbv zeta.
    unfold bindC, lift. simpl. rewrite Hc.
    rewrite sendMessage_with_postMessage.
    destruct (fst (sendMessage _ _ (Some returning) w1)); simpl; [| reflexivity].
    unfold postMessage, update. simpl. now rewrite <- app_assoc. }
  rewrite E.
  destruct (fst (sendMessage _ _ (Some returning) w1)) as [text | e] eqn:Hf; simpl;
    rewrite (opened_created _ _ _ _ _ Hs).
  - apply sendMessage_returning_text in Hf.
    rewrite (opened_created _ _ _ _ _ Hs) in Hf. now subst text.
  - now rewrite app_nil_r.
Qed.

Lemma vscodeExample_posts_witness :
  fst (snd (vscodeExample chatty_library
              (Some [{| fsPath := "/path/to/workspace" |}]) ([], world0))) =
    [StreamMessage "po"; StreamMessage "ng"; CompleteMessage "pong"] /\
  fst (snd (vscodeExample erring_library
              (Some [{| fsPath := "/path/to/workspace" |}]) ([], world0))) =
    [StreamMessage "po"].
Proof.
  split.
  - refine (vscodeExample_posts chatty_library {| fsPath := "/path/to/workspace" |}
              [] [] world0 _).
    split; [reflexivity | right; reflexivity].
  - refine (vscodeExample_posts erring_library {| fsPath := "/path/to/workspace" |}
              [] [] world0 _).
    split; [reflexivity | right; reflexivity].
Defined.

(** ** [handleSend] of [ReactExample] *)

Lemma fold_left_response (chunks : list string) :
  forall c : Component,
    fold_left (fun c chunk => {| response := response c ++ chunk;
                                 loading := loading c;
                                 console_errors := console_errors c |})
      chunks c =
    {| response := response c ++ join chunks;
       loading := loading c;
       console_errors := console_errors c |}.
Proof.
  induction chunks as [|v vs IH]; intros c; simpl.
  - destruct c. simpl. now rewrite append_nil_r.
  - rewrite IH. simpl. now rewrite append_assoc.
Qed.

Lemma sendMessage_with_setResponse (this : SimpleAgent) (message : string)
    (c : Component) (w : World) :
  sendMessage_with this message
    (Some (fun chunk => setResponse (fun prev => prev ++ chunk))) (c, w) =
  (fst (sendMessage this message (Some returning) w),
   ({| response := response c ++ join (delivered_of (opened this message w));
       loading := loading c;
       console_errors := console_errors c |},
    snd (sendMessage this message (Some returning) w))).
Proof.
  unfold setResponse.
  rewrite (sendMessage_with_update
             (fun chunk c => {| response := response c ++ chunk;
                                loading := loading c;
                                console_errors := console_errors c |})).
  now rewrite fold_left_response.
Qed.

(** X15: with no facade yet, [handleSend] does nothing.  With a facade at
    hand it never throws, whatever the client and the stream do: when it is
    over, [loading] is false; the response shown is the concatenation of the
    chunks up to the first finished or error event, also when the call
    failed; [console.error] has been given the error exactly when the call
    failed; and the world is as a call with a callback that just returns
    leaves it. *)
Theorem handleSend_settles (agent : SimpleAgent) (message : string)
    (c : Component) (w : World) :
  handleSend None message (c, w) = (Normal tt, (c, w)) /\
  handleSend (Some agent) message (c, w) =
  (Normal tt,
   ({| response := join (delivered_of (opened agent message w));
       loading := false;
       console_errors :=
         (console_errors c ++
          match fst (sendMessage agent message (Some returning) w) with
          | Normal _ => []
          | Throw e => [e]
          end)%list |},
    snd (sendMessage agent message (Some returning) w))).
Proof.
  split; [reflexivity |].
  unfold handleSend, try_finallyC, try_catchC.
  unfold bindC at 1 2. unfold setLoading at 1. unfold setResponse at 1.
  unfold update at 1 2. simpl.
  unfold bindC. rewrite sendMessage_with_setResponse. simpl.
  destruct (fst (sendMessage agent message (Some returning) w)) as [text | e]; simpl.
  - now rewrite app_nil_r.
  - reflexivity.
Qed.

(** ** The callback as an observer *)

Lemma for_await_observer (f : Callback) (stream : Stream) :
  forall (acc : string) (w w0 : World),
    returns_normally (Some f) (onStream_calls w) (delivered stream) = true ->
    fst (for_await (Some f) stream acc w) = fst (for_await None stream acc w0).
Proof.
  induction stream as [| reason | cleanup event rest IH] using Stream_suspended_ind;
    intros acc w w0 Hr; [reflexivity | reflexivity |].
  rewrite !for_await_suspended. rewrite delivered_suspended in Hr.
  destruct event as [v | | v | v | t]; simpl in *; try reflexivity.
  - unfold bind, notify, call, ret.
    destruct (f (onStream_calls w) v); [discriminate |].
    now apply IH.
  - now apply IH.
  - now apply IH.
Qed.

(** X16: a callback that returns each time it is invoked is a mere observer:
    the call returns the same text, or fails with the same error, as with no
    callback at all. *)
Theorem callback_is_observer (this : SimpleAgent) (message : string)
    (f : Callback) (w : World) :
  returns_normally (Some f) (onStream_calls w)
    (delivered_of (opened this message w)) = true ->
  fst (sendMessage this message (Some f) w) =
  fst (sendMessage this message None w).
Proof.
  intros Hr. rewrite !sendMessage_unfold.
  destruct (opened this message w) as [stream | e]; [| reflexivity].
  pose proof (for_await_observer f stream "" (started this message w)
                (started this message w) Hr) as H.
  destruct (for_await (Some f) stream "" (started this message w)) as [r1 w1].
  destruct (for_await None stream "" (started this message w)) as [r2 w2].
  simpl in H. subst r2. now destruct r1.
Qed.

Lemma callback_is_observer_witness :
  fst (sendMessage
         (sample_agent (Normal (Yield (Content "po")
            (Yield (error_event (Some "quota exceeded")) Done))))
         "ping" (Some returning) world0) =
  fst (sendMessage
         (sample_agent (Normal (Yield (Content "po")
            (Yield (error_event (Some "quota exceeded")) Done))))
         "ping" None world0).
Proof.
  exact (callback_is_observer
           (sample_agent (Normal (Yield (Content "po")
              (Yield (error_event (Some "quota exceeded")) Done))))
           "ping" returning world0 eq_refl).
Defined.

(** X17: a callback that only changes what its caller keeps and never throws
    has no influence on the call: the call ends as it does with a callback
    that just returns and leaves the same world, and the caller's state has
    taken in, in order, the chunks up to the first finished or error event. *)
Theorem callback_state_takes_chunks {X : Type} (g : string -> X -> X)
    (this : SimpleAgent) (message : string) (x : X) (w : World) :
  sendMessage_with this message (Some (fun chunk => update (g chunk))) (x, w) =
  (fst (sendMessage this message (Some returning) w),
   (fold_left (fun x c => g c x) (delivered_of (opened this message w)) x,
    snd (sendMessage this message (Some returning) w))).
Proof. apply sendMessage_with_update. Qed.
